(** * HID USB relay dashboard: the control core of [hid_relay_modern_gui.py]

    A shallow embedding of the executable locator, the relay command
    client ([HIDRelayController]) and the session logic of
    [ModernHIDRelayGUI] (detection, connect / disconnect, the set
    operations and the status polling loop), followed by the properties
    proved about them.  Widgets, colours and log lines are left out; the
    button states that gate the session are kept. *)

From Stdlib Require Import ZArith QArith Bool List Lia.
From Stdlib Require Import Strings.Ascii Strings.String Numbers.DecimalString.
From stdpp Require Import gmap strings list fin_maps.

Local Open Scope string_scope.
Local Open Scope Z_scope.

(** ** Python built-ins used by the program *)

Module Py.

(** [str.isspace] on one character.  Characters are code points below
    256; the white space characters in that range are TAB..CR, FS..US,
    SPACE, NEL and NBSP. *)
Definition isspace (c : ascii) : bool :=
  let n := N_of_ascii c in
  ((9 <=? n) && (n <=? 13) || (28 <=? n) && (n <=? 31)
   || (n =? 32) || (n =? 133) || (n =? 160))%N.

Fixpoint lstrip (s : string) : string :=
  match s with
  | EmptyString => EmptyString
  | String c s' => if isspace c then lstrip s' else s
  end.

Fixpoint rstrip (s : string) : string :=
  match s with
  | EmptyString => EmptyString
  | String c s' =>
      match rstrip s' with
      | EmptyString => if isspace c then EmptyString else String c EmptyString
      | r => String c r
      end
  end.

(** [s.strip()] *)
Definition strip (s : string) : string := rstrip (lstrip s).

(** [s.split(sep)] for a separator of one character: the string is cut
    at every occurrence of [sep]; the result is never the empty list. *)
Fixpoint split (sep : ascii) (s : string) : list string :=
  match s with
  | EmptyString => [EmptyString]
  | String c s' =>
      if Ascii.eqb c sep then EmptyString :: split sep s'
      else match split sep s' with
           | [] => [String c EmptyString]
           | t :: ts => String c t :: ts
           end
  end.

(** [l[-1]] on a list of strings; [split] never returns [[]], where
    Python would raise [IndexError]. *)
Definition last (l : list string) : string := List.last l EmptyString.

(** [sep.join(l)] *)
Definition join (sep : string) (l : list string) : string := String.concat sep l.

(** Truth value of a [str], of an [Optional[str]] and of an
    [Optional[List[str]]]: [None] and the empty value are false. *)
Definition truthy_str (s : string) : bool :=
  match s with EmptyString => false | _ => true end.

Definition truthy_opt_str (o : option string) : bool :=
  match o with Some s => truthy_str s | None => false end.

Definition truthy_opt_list (o : option (list string)) : bool :=
  match o with Some (_ :: _) => true | _ => false end.

(** [str(n)] for an [int]. *)
Definition str (n : Z) : string := NilZero.string_of_int (Z.to_int n).

(** [len(l)] *)
Definition len {A} (l : list A) : Z := Z.of_nat (List.length l).

(** [range(1, n + 1)] *)
Definition range1 (n : Z) : list Z := map Z.of_nat (seq 1 (Z.to_nat n)).

(** [enumerate(l, start=1)] *)
Fixpoint enumerate {A} (start : Z) (l : list A) : list (Z * A) :=
  match l with
  | [] => []
  | x :: l' => (start, x) :: enumerate (start + 1) l'
  end.

(** Exceptions that reach the program.  All three derive from
    [Exception]; [OtherException] stands for every class other than the
    two named ones ([PermissionError], [OSError], ...). *)
Inductive exception :=
| FileNotFoundError
| TimeoutExpired
| OtherException (msg : string).

(** A computation either returns or raises. *)
Inductive result (A : Type) :=
| Return (a : A)
| Raise (e : exception).
Arguments Return {A} a.
Arguments Raise {A} e.

Definition bind {A B} (m : result A) (k : A -> result B) : result B :=
  match m with
  | Return a => k a
  | Raise e => Raise e
  end.

(** [try: m  except Exception: h] *)
Definition try_except {A} (m : result A) (h : exception -> result A) : result A :=
  match m with
  | Return a => Return a
  | Raise e => h e
  end.

End Py.

Notation "'let*' x := m 'in' k" := (Py.bind m (fun x => k))
  (at level 10, x name, m at level 100, k at level 200).

(** ** The host: file system and external processes *)

Module Host.

(** What the locator reads from its environment. *)
Record filesystem := {
  system : string;             (* platform.system().lower() *)
  MEIPASS : option string;     (* sys._MEIPASS, set in a bundled program only *)
  getcwd : string;             (* os.getcwd(), also os.path.abspath(".") *)
  script_dir : string;         (* os.path.dirname(os.path.abspath(__file__)) *)
  path_join : string -> string -> string;   (* os.path.join *)
  path_exists : string -> bool              (* os.path.exists *)
}.

(** What happens when a command line is spawned: the program is not
    found, the spawn fails otherwise, or the process runs for
    [duration] seconds and exits. *)
Inductive behaviour :=
| NotFound
| SpawnFault (msg : string)
| Exits (duration : Q) (returncode : Z) (stdout stderr : string).

Definition world := list string -> behaviour.

Record CompletedProcess := {
  returncode : Z;
  stdout : string;
  stderr : string
}.

(** [subprocess.run(command, stdout=PIPE, stderr=PIPE,
    universal_newlines=True, timeout=timeout)] *)
Definition subprocess_run (w : world) (command : list string) (timeout : Q)
  : Py.result CompletedProcess :=
  match w command with
  | NotFound => Py.Raise Py.FileNotFoundError
  | SpawnFault msg => Py.Raise (Py.OtherException msg)
  | Exits d rc out err =>
      if Qle_bool d timeout
      then Py.Return {| returncode := rc; stdout := out; stderr := err |}
      else Py.Raise Py.TimeoutExpired
  end.

End Host.

(** ** [get_resource_path] and [class HIDRelayController] *)

Definition get_resource_path (fs : Host.filesystem) (relative_path : string) : string :=
  let base_path :=
    match Host.MEIPASS fs with
    | Some p => p
    | None => Host.getcwd fs
    end in
  Host.path_join fs base_path relative_path.

Module HIDRelayController.

Record t := {
  relay_executable : string;
  relay_count : Z;
  device_id : option string
}.

Definition exe_name (fs : Host.filesystem) : string :=
  if String.eqb (Host.system fs) "windows"
  then "hidusb-relay-cmd.exe" else "hidusb-relay-cmd".

Fixpoint first_existing (fs : Host.filesystem) (search_paths : list string)
  : option string :=
  match search_paths with
  | [] => None
  | exe_path :: rest =>
      if Host.path_exists fs exe_path then Some exe_path
      else first_existing fs rest
  end.

Definition get_relay_executable (fs : Host.filesystem) : string :=
  let exe_name := exe_name fs in
  let bundled_path := get_resource_path fs exe_name in
  if Host.path_exists fs bundled_path then bundled_path
  else
    let search_paths :=
      [ Host.path_join fs (Host.script_dir fs) exe_name;
        Host.path_join fs (Host.getcwd fs) exe_name;
        exe_name ] in
    match first_existing fs search_paths with
    | Some exe_path => exe_path
    | None => exe_name
    end.

Definition init (fs : Host.filesystem) : t :=
  {| relay_executable := get_relay_executable fs;
     relay_count := 0;
     device_id := None |}.

Definition timeout : Q := 10 # 1.

Definition run_command (w : Host.world) (command : list string)
  : Py.result (option string) :=
  Py.try_except
    (let* process := Host.subprocess_run w command timeout in
     if Host.returncode process =? 0
     then Py.Return (Some (Py.strip (Host.stdout process)))
     else Py.Return None)
    (fun e =>
       match e with
       | Py.FileNotFoundError => Py.Return None
       | Py.TimeoutExpired => Py.Return None
       | Py.OtherException _ => Py.Return None
       end).

Definition enumerate_devices (w : Host.world) (self : t) : Py.result (option string) :=
  run_command w [relay_executable self; "ENUM"].

(** The command line of a request: [id=<device_id>] comes first when a
    device identifier is set. *)
Definition command_line (self : t) (args : list string) : list string :=
  match device_id self with
  | Some id =>
      if Py.truthy_str id
      then relay_executable self :: ("id=" ++ id) :: args
      else relay_executable self :: args
  | None => relay_executable self :: args
  end.

Definition get_device_state (w : Host.world) (self : t)
  : Py.result (option (list string)) :=
  let* output := run_command w (command_line self ["STATUS"]) in
  match output with
  | Some output =>
      if Py.truthy_str output then
        let status_part := Py.strip (Py.last (Py.split ":" output)) in
        Py.Return (Some (Py.split " " status_part))
      else Py.Return None
  | None => Py.Return None
  end.

Definition is_not_None {A} (o : option A) : bool :=
  match o with Some _ => true | None => false end.

Definition set_relay_state (w : Host.world) (self : t) (relay_number state : string)
  : Py.result bool :=
  let* result := run_command w (command_line self [state; relay_number]) in
  Py.Return (is_not_None result).

Definition set_all_relays (w : Host.world) (self : t) (state : string)
  : Py.result bool :=
  let* result := run_command w (command_line self [state; "ALL"]) in
  Py.Return (is_not_None result).

Definition detect_relay_count (w : Host.world) (self : t) : Py.result Z :=
  let* states := get_device_state w self in
  Py.Return (match states with
             | Some states => if Py.truthy_opt_list (Some states) then Py.len states else 0
             | None => 0
             end).

End HIDRelayController.

(** ** [class ModernHIDRelayGUI]: the session state and its operations *)

Module ModernHIDRelayGUI.

(** State of a button: [tk.NORMAL] or [tk.DISABLED]. *)
Inductive btn_state := NORMAL | DISABLED.

(** The fields of the object that the session logic reads or writes.
    [relay_cards] keeps the keys of the card dictionary only. *)
Record t := {
  controller : HIDRelayController.t;
  relay_states : gmap Z bool;
  relay_cards : gset Z;
  is_connected : bool;
  status_update_running : bool;
  relay_count : Z;
  detect_btn : btn_state;
  connect_btn : btn_state;
  all_on_btn : btn_state;
  all_off_btn : btn_state
}.

Definition set_relay_states (m : gmap Z bool) (self : t) : t :=
  {| controller := controller self; relay_states := m;
     relay_cards := relay_cards self; is_connected := is_connected self;
     status_update_running := status_update_running self;
     relay_count := relay_count self; detect_btn := detect_btn self;
     connect_btn := connect_btn self; all_on_btn := all_on_btn self;
     all_off_btn := all_off_btn self |}.

Definition set_relay_count (n : Z) (self : t) : t :=
  {| controller := controller self; relay_states := relay_states self;
     relay_cards := relay_cards self; is_connected := is_connected self;
     status_update_running := status_update_running self;
     relay_count := n; detect_btn := detect_btn self;
     connect_btn := connect_btn self; all_on_btn := all_on_btn self;
     all_off_btn := all_off_btn self |}.

Definition set_buttons (detect connect : btn_state) (self : t) : t :=
  {| controller := controller self; relay_states := relay_states self;
     relay_cards := relay_cards self; is_connected := is_connected self;
     status_update_running := status_update_running self;
     relay_count := relay_count self; detect_btn := detect;
     connect_btn := connect; all_on_btn := all_on_btn self;
     all_off_btn := all_off_btn self |}.

(** [__init__]: the connect button and the two quick-action buttons are
    created disabled. *)
Definition init (fs : Host.filesystem) : t :=
  {| controller := HIDRelayController.init fs;
     relay_states := ∅;
     relay_cards := ∅;
     is_connected := false;
     status_update_running := false;
     relay_count := 0;
     detect_btn := NORMAL;
     connect_btn := DISABLED;
     all_on_btn := DISABLED;
     all_off_btn := DISABLED |}.

(** The call-back that the detection thread hands to the main loop. *)
Inductive callback :=
| call_on_device_detected
| call_on_detection_failed (error_msg : string).

Definition no_device_msg : string := "No HID USB Relay device found.".

Definition detection_thread (w : Host.world) (self : t) : Py.result (t * callback) :=
  let* devices_info := HIDRelayController.enumerate_devices w (controller self) in
  if Py.truthy_opt_str devices_info then
    let* n := HIDRelayController.detect_relay_count w (controller self) in
    let self := set_relay_count n self in
    if relay_count self >? 0 then
      Py.Return (self, call_on_device_detected)
    else
      let self := set_relay_count 4 self in
      Py.Return (self, call_on_device_detected)
  else
    Py.Return (self, call_on_detection_failed no_device_msg).

Definition on_device_detected (self : t) : t :=
  set_buttons NORMAL NORMAL self.

Definition on_detection_failed (error_msg : string) (self : t) : t :=
  set_buttons NORMAL DISABLED self.

Definition run_callback (cb : callback) (self : t) : t :=
  match cb with
  | call_on_device_detected => on_device_detected self
  | call_on_detection_failed error_msg => on_detection_failed error_msg self
  end.

(** [detect_device], with the thread run to its end and its call-back
    delivered. *)
Definition detect_device (w : Host.world) (self : t) : Py.result t :=
  let self := set_buttons DISABLED (connect_btn self) self in
  let* r := detection_thread w self in
  Py.Return (run_callback (snd r) (fst r)).

(** [for i in range(1, self.relay_count + 1): self.relay_states[i] = v] *)
Definition fill_states (v : bool) (n : Z) (m : gmap Z bool) : gmap Z bool :=
  fold_left (fun m i => <[i := v]> m) (Py.range1 n) m.

Definition create_relay_cards (n : Z) (cards : gset Z) : gset Z :=
  fold_left (fun s i => {[i]} ∪ s) (Py.range1 n) cards.

(** [connect]: nothing happens while no channel count is known.  The
    statements under [try] are dictionary writes and widget updates, none
    of which raises here, so the handler is never entered. *)
Definition connect (self : t) : t :=
  if relay_count self =? 0 then self
  else
    {| controller := controller self;
       relay_states := fill_states false (relay_count self) (relay_states self);
       relay_cards := create_relay_cards (relay_count self) (relay_cards self);
       is_connected := true;
       status_update_running := true;
       relay_count := relay_count self;
       detect_btn := DISABLED;
       connect_btn := connect_btn self;
       all_on_btn := NORMAL;
       all_off_btn := NORMAL |}.

(** [disconnect]: the cards are destroyed and their dictionary is
    cleared; [relay_states] is not touched. *)
Definition disconnect (self : t) : t :=
  {| controller := controller self;
     relay_states := relay_states self;
     relay_cards := ∅;
     is_connected := false;
     status_update_running := false;
     relay_count := relay_count self;
     detect_btn := NORMAL;
     connect_btn := connect_btn self;
     all_on_btn := DISABLED;
     all_off_btn := DISABLED |}.

Definition toggle_connection (self : t) : t :=
  if is_connected self then disconnect self else connect self.

(** [self.relay_states.get(relay_num, False)] *)
Definition get_state (m : gmap Z bool) (relay_num : Z) : bool :=
  match m !! relay_num with Some b => b | None => false end.

Definition toggle_relay (w : Host.world) (relay_num : Z) (self : t) : Py.result t :=
  if negb (is_connected self) then Py.Return self
  else
    let current_state := get_state (relay_states self) relay_num in
    let new_state := if current_state then "OFF" else "ON" in
    let* ok := HIDRelayController.set_relay_state w (controller self)
                 (Py.str relay_num) new_state in
    if ok then
      Py.Return (set_relay_states
                   (<[relay_num := negb current_state]> (relay_states self)) self)
    else Py.Return self.

Definition turn_all_on (w : Host.world) (self : t) : Py.result t :=
  let* ok := HIDRelayController.set_all_relays w (controller self) "ON" in
  if ok then
    Py.Return (set_relay_states
                 (fill_states true (relay_count self) (relay_states self)) self)
  else Py.Return self.

Definition turn_all_off (w : Host.world) (self : t) : Py.result t :=
  let* ok := HIDRelayController.set_all_relays w (controller self) "OFF" in
  if ok then
    Py.Return (set_relay_states
                 (fill_states false (relay_count self) (relay_states self)) self)
  else Py.Return self.

(** [state_str.split('=')[-1] == "ON"] *)
Definition parse_state (state_str : string) : bool :=
  String.eqb (Py.last (Py.split "=" state_str)) "ON".

(** The body of the [for] loop of [update_status_loop]. *)
Definition update_one (m : gmap Z bool) (p : Z * string) : gmap Z bool :=
  let '(i, state_str) := p in
  let is_on := parse_state state_str in
  match m !! i with
  | Some b => if negb (Bool.eqb b is_on) then <[i := is_on]> m else m
  | None => m
  end.

(** One turn of the [while] loop of [update_status_loop]. *)
Definition update_status_step (w : Host.world) (self : t) : Py.result t :=
  if is_connected self then
    Py.try_except
      (let* states := HIDRelayController.get_device_state w (controller self) in
       if Py.truthy_opt_list states then
         match states with
         | Some states =>
             Py.Return (set_relay_states
                          (fold_left update_one (Py.enumerate 1 states)
                             (relay_states self)) self)
         | None => Py.Return self
         end
       else Py.Return self)
      (fun _ => Py.Return self)
  else Py.Return self.

(** [update_status_loop] over the successive states of the host, one per
    wake-up, for as long as the flag stays set. *)
Fixpoint update_status_loop (ws : list Host.world) (self : t) : Py.result t :=
  match ws with
  | [] => Py.Return self
  | w :: ws' =>
      if status_update_running self then
        let* self := update_status_step w self in
        update_status_loop ws' self
      else Py.Return self
  end.

Definition set_status_update_running (b : bool) (self : t) : t :=
  {| controller := controller self; relay_states := relay_states self;
     relay_cards := relay_cards self; is_connected := is_connected self;
     status_update_running := b;
     relay_count := relay_count self; detect_btn := detect_btn self;
     connect_btn := connect_btn self; all_on_btn := all_on_btn self;
     all_off_btn := all_off_btn self |}.

(** [on_closing]: the polling flag is cleared and a connected session is
    disconnected before the window is destroyed. *)
Definition on_closing (self : t) : t :=
  let self := set_status_update_running false self in
  if is_connected self then disconnect self else self.

End ModernHIDRelayGUI.

(** ** The dashboard as its user drives it *)

Module Dashboard.

Import ModernHIDRelayGUI.

(** What can happen to the object between two moments of rest: a click
    on one of its buttons, a wake-up of a polling thread, or the window
    being closed.  Each one carries the state of the host it meets.

    Granularity: every action is one step.  In particular a detection is
    taken with its thread run to the end and its call-back delivered
    before the next action.  The program itself only disables the detect
    button while that thread runs, so a click on Connect or on a card in
    the middle of a detection, and a polling turn cut in two by a click,
    are behaviours of the program that these steps leave out; what is
    proved of [reachable] below is proved of the sessions in which no
    action overlaps another. *)
Inductive action :=
| click_detect (w : Host.world)
| click_connect
| click_toggle (relay_num : Z) (w : Host.world)
| click_all_on (w : Host.world)
| click_all_off (w : Host.world)
| wake_up (w : Host.world)
| close_window.

Definition is_normal (b : btn_state) : bool :=
  match b with NORMAL => true | DISABLED => false end.

(** A button answers only while it is enabled, and a card answers only
    while it exists. *)
Definition enabled (a : action) (self : t) : bool :=
  match a with
  | click_detect _ => is_normal (detect_btn self)
  | click_connect => is_normal (connect_btn self)
  | click_toggle relay_num _ => bool_decide (relay_num ∈ relay_cards self)
  | click_all_on _ => is_normal (all_on_btn self)
  | click_all_off _ => is_normal (all_off_btn self)
  | wake_up _ => true
  | close_window => true
  end.

Definition perform (a : action) (self : t) : Py.result t :=
  match a with
  | click_detect w => detect_device w self
  | click_connect => Py.Return (toggle_connection self)
  | click_toggle relay_num w => toggle_relay w relay_num self
  | click_all_on w => turn_all_on w self
  | click_all_off w => turn_all_off w self
  | wake_up w => update_status_loop [w] self
  | close_window => Py.Return (on_closing self)
  end.

(** The states the object goes through from its creation. *)
Inductive reachable (fs : Host.filesystem) : t -> Prop :=
| reach_init : reachable fs (init fs)
| reach_step self a self' :
    reachable fs self ->
    enabled a self = true ->
    perform a self = Py.Return self' ->
    reachable fs self'.

(** Running a list of actions, skipping those that are not enabled. *)
Fixpoint run (actions : list action) (self : t) : Py.result t :=
  match actions with
  | [] => Py.Return self
  | a :: rest =>
      if enabled a self then
        let* self := perform a self in run rest self
      else run rest self
  end.

End Dashboard.

(** ** Notions of the specification *)

Module Spec.

Import ModernHIDRelayGUI.

(** [c in s] *)
Fixpoint contains (c : ascii) (s : string) : bool :=
  match s with
  | EmptyString => false
  | String c' s' => Ascii.eqb c' c || contains c s'
  end.

(** A string made of white space only. *)
Fixpoint all_whitespace (s : string) : bool :=
  match s with
  | EmptyString => true
  | String c s' => Py.isspace c && all_whitespace s'
  end.

(** Splitting on white space as the specification words it: the tokens
    are the maximal runs of characters that are not white space. *)
Fixpoint split_whitespace (s : string) : list string :=
  match s with
  | EmptyString => []
  | String c s' =>
      if Py.isspace c then split_whitespace s'
      else match s' with
           | EmptyString => [String c EmptyString]
           | String c' _ =>
               if Py.isspace c' then String c EmptyString :: split_whitespace s'
               else match split_whitespace s' with
                    | t :: ts => String c t :: ts
                    | [] => [String c EmptyString]
                    end
           end
  end.

(** The four causes of failure of an invocation. *)
Inductive failure : Host.behaviour -> Prop :=
| executable_not_found :
    failure Host.NotFound
| timeout_exceeded d rc out err :
    (HIDRelayController.timeout < d)%Q -> failure (Host.Exits d rc out err)
| non_zero_exit d rc out err :
    rc <> 0 -> failure (Host.Exits d rc out err)
| spawn_fault msg :
    failure (Host.SpawnFault msg).

(** An invocation that ends in time with exit status 0. *)
Definition succeeds (b : Host.behaviour) (out : string) : Prop :=
  exists d err, b = Host.Exits d 0 out err /\ (d <= HIDRelayController.timeout)%Q.




(** Phases of a session, read off the object: connected, detection
    running (detect button disabled), detected (connect button
    enabled), idle. *)
Inductive phase := Idle | Detecting | Detected | Connected.

Definition phase_of (self : t) : phase :=
  if is_connected self then Connected
  else match detect_btn self, connect_btn self with
       | DISABLED, _ => Detecting
       | NORMAL, NORMAL => Detected
       | NORMAL, DISABLED => Idle
       end.

(** The state of key [i] after one pass of the polling loop over
    [tokens]: the token at position [i], counted from 1, decides. *)
Definition polled (tokens : list string) (m : gmap Z bool) (i : Z) : option bool :=
  match m !! i with
  | None => None
  | Some b =>
      Some (match (if decide (1 <= i) then tokens !! Z.to_nat (i - 1) else None) with
            | Some state_str => parse_state state_str
            | None => b
            end)
  end.

(** The keys [1..n]. *)
Definition channels (n : Z) : gset Z := list_to_set (Py.range1 n).

(** What holds of the object whenever it is at rest. *)
Record session_inv (fs : Host.filesystem) (self : t) : Prop := {
  inv_controller : controller self = HIDRelayController.init fs;
  inv_connect_btn : connect_btn self = NORMAL -> 0 < relay_count self;
  inv_keys :
    exists m, dom (relay_states self) = channels m
              /\ (is_connected self = true -> relay_count self <= m);
  inv_connected :
    is_connected self = true ->
    relay_cards self = channels (relay_count self)
    /\ connect_btn self = NORMAL
    /\ detect_btn self = DISABLED
    /\ all_on_btn self = NORMAL
    /\ all_off_btn self = NORMAL
    /\ status_update_running self = true;
  inv_disconnected :
    is_connected self = false ->
    relay_cards self = ∅
    /\ detect_btn self = NORMAL
    /\ all_on_btn self = DISABLED
    /\ all_off_btn self = DISABLED
    /\ status_update_running self = false
}.

End Spec.

(** ** Sample hosts *)

Module Sample.

Definition LF : string := String "010"%char "".
Definition TAB : string := String "009"%char "".

(** A process that ends after a tenth of a second. *)
Definition exits (rc : Z) (out : string) : Host.behaviour :=
  Host.Exits (1 # 10) rc out "".

(** A relay tool that answers by the last word of its command line. *)
Definition tool (enum status set : Host.behaviour) : Host.world :=
  fun command =>
    let verb := Py.last command in
    if String.eqb verb "ENUM" then enum
    else if String.eqb verb "STATUS" then status
    else set.

Definition board (status_line : string) : Host.world :=
  tool (exits 0 ("5291D:R1" ++ LF)) (exits 0 (status_line ++ LF)) (exits 0 "").

(** One failure cause per request: not found, too slow, exit status 1,
    spawn fault. *)
Definition failing_host : Host.world :=
  fun command =>
    let verb := Py.last command in
    if String.eqb verb "ENUM" then Host.NotFound
    else if String.eqb verb "STATUS" then Host.Exits (11 # 1) 0 "1=ON" ""
    else if String.eqb verb "ALL" then Host.SpawnFault "Permission denied"
    else Host.Exits (1 # 10) 1 "" "usage".

Definition client : HIDRelayController.t :=
  {| HIDRelayController.relay_executable := "hidusb-relay-cmd";
     HIDRelayController.relay_count := 0;
     HIDRelayController.device_id := None |}.

(** A bundled program started in a directory that holds a copy of the
    tool as well, and a host without the tool anywhere. *)
Definition bundled_fs : Host.filesystem :=
  {| Host.system := "linux";
     Host.MEIPASS := Some "/tmp/_MEI4021";
     Host.getcwd := "/home/lab";
     Host.script_dir := "/tmp/_MEI4021";
     Host.path_join := fun a b => a ++ "/" ++ b;
     Host.path_exists := fun p =>
       String.eqb p "/tmp/_MEI4021/hidusb-relay-cmd"
       || String.eqb p "/home/lab/hidusb-relay-cmd" |}.


(** A program run from its sources, with a copy of the tool beside the
    script and another one in the working directory. *)
Definition script_fs : Host.filesystem :=
  {| Host.system := "linux";
     Host.MEIPASS := None;
     Host.getcwd := "/home/lab";
     Host.script_dir := "/opt/relay/src";
     Host.path_join := fun a b => a ++ "/" ++ b;
     Host.path_exists := fun p =>
       String.eqb p "/opt/relay/src/hidusb-relay-cmd"
       || String.eqb p "/home/lab/hidusb-relay-cmd" |}.

Definition status4 : string := "Device status: 1=OFF 2=ON 3=OFF 4=OFF".
Definition status8 : string :=
  "Device status: 1=OFF 2=OFF 3=OFF 4=OFF 5=OFF 6=OFF 7=OFF 8=OFF".

(** A board that is listed but does not answer the status request. *)
Definition mute_board : Host.world :=
  tool (exits 0 "5291D:R1") (exits 1 "") (exits 0 "").

(** A tool that exits with status 0 and prints white space only. *)
Definition blank_tool : Host.world :=
  tool (exits 0 (" " ++ LF)) (exits 0 (TAB ++ LF)) (exits 0 "").

Definition gui0 : ModernHIDRelayGUI.t := ModernHIDRelayGUI.init bundled_fs.

(** A session that has detected four channels. *)
Definition detected4 : ModernHIDRelayGUI.t :=
  ModernHIDRelayGUI.on_device_detected (ModernHIDRelayGUI.set_relay_count 4 gui0).

(** A session connected to four channels. *)
Definition connected4 : ModernHIDRelayGUI.t :=
  ModernHIDRelayGUI.connect
    (ModernHIDRelayGUI.on_device_detected
       (ModernHIDRelayGUI.set_relay_count 4 gui0)).

(** Detect and connect an eight channel board, switch everything on,
    disconnect, then detect and connect a four channel board. *)
Definition reconnect_session : Py.result ModernHIDRelayGUI.t :=
  let* s1 := ModernHIDRelayGUI.detect_device (board status8) gui0 in
  let s2 := ModernHIDRelayGUI.toggle_connection s1 in
  let* s3 := ModernHIDRelayGUI.turn_all_on (board status8) s2 in
  let s4 := ModernHIDRelayGUI.toggle_connection s3 in
  let* s5 := ModernHIDRelayGUI.detect_device (board status4) s4 in
  Py.Return (ModernHIDRelayGUI.toggle_connection s5).

End Sample.

(** A sample process exits with status 0 within the time bound. *)
Ltac sample_succeeds :=
  exists (1 # 10)%Q, ""; split;
  [ reflexivity | unfold HIDRelayController.timeout, Qle; simpl; lia ].

(** ** Strings *)

Section Strings.

Example strip_line :
  Py.strip ("  1=OFF 2=ON " ++ Sample.LF) = "1=OFF 2=ON".
Proof. reflexivity. Qed.

Example split_colons : Py.split ":" "a:b::c" = ["a"; "b"; ""; "c"].
Proof. reflexivity. Qed.

Example split_empty : Py.split " " "" = [""].
Proof. reflexivity. Qed.

Example str_of_int : Py.str 12 = "12" /\ Py.str 0 = "0" /\ Py.str (-3) = "-3".
Proof. repeat split; reflexivity. Qed.

Example range_three : Py.range1 3 = [1; 2; 3] /\ Py.range1 0 = [].
Proof. split; reflexivity. Qed.

Lemma split_not_nil sep s : Py.split sep s <> [].
Proof.
  destruct s as [|c s]; simpl; [discriminate|].
  destruct (Ascii.eqb c sep); [discriminate|].
  destruct (Py.split sep s); discriminate.
Qed.

Lemma split_cons sep s : exists t ts, Py.split sep s = t :: ts.
Proof.
  destruct (Py.split sep s) as [|t ts] eqn:E; [|eauto].
  exfalso. eapply split_not_nil, E.
Qed.

(** Gluing the pieces back with the separator gives the string. *)
Lemma join_split sep s : Py.join (String sep "") (Py.split sep s) = s.
Proof.
  induction s as [|c s IH]; simpl; [reflexivity|].
  destruct (split_cons sep s) as (t & ts & Hs).
  destruct (Ascii.eqb c sep) eqn:E.
  - apply Ascii.eqb_eq in E. subst c.
    rewrite Hs in *. rewrite <- IH. reflexivity.
  - rewrite Hs in *. rewrite <- IH. destruct ts; reflexivity.
Qed.

(** No piece contains the separator. *)
Lemma split_no_sep sep s :
  Forall (fun t => Spec.contains sep t = false) (Py.split sep s).
Proof.
  induction s as [|c s IH]; simpl.
  - now constructor.
  - destruct (Ascii.eqb c sep) eqn:E.
    + constructor; [reflexivity | exact IH].
    + destruct (split_cons sep s) as (t & ts & Hs). rewrite Hs in *.
      inversion IH; subst. constructor; [|assumption].
      simpl. now rewrite E.
Qed.

Lemma last_cons_cons (t u : string) ts : Py.last (t :: u :: ts) = Py.last (u :: ts).
Proof. reflexivity. Qed.

Lemma split_single sep s : Spec.contains sep s = false -> Py.split sep s = [s].
Proof.
  induction s as [|c s IH]; simpl; [reflexivity|].
  intros H. apply orb_false_iff in H as [H1 H2].
  rewrite H1, (IH H2). reflexivity.
Qed.

Lemma split_many sep s :
  Spec.contains sep s = true -> exists t u ts, Py.split sep s = t :: u :: ts.
Proof.
  induction s as [|c s IH]; simpl; [discriminate|].
  destruct (Ascii.eqb c sep) eqn:E; simpl.
  - intros _. destruct (split_cons sep s) as (t & ts & Hs).
    rewrite Hs. eauto.
  - intros H. destruct (IH H) as (t & u & ts & Hs). rewrite Hs. eauto.
Qed.

(** The last piece is the part of the string after the last separator. *)
Lemma last_split_suffix sep s :
  Spec.contains sep s = true ->
  exists pre, s = pre ++ String sep (Py.last (Py.split sep s)).
Proof.
  induction s as [|c s IH]; simpl; [discriminate|].
  destruct (Ascii.eqb c sep) eqn:E; simpl.
  - intros _. apply Ascii.eqb_eq in E. subst c.
    destruct (split_cons sep s) as (t & ts & Hs).
    rewrite Hs, last_cons_cons, <- Hs.
    destruct (Spec.contains sep s) eqn:Hc.
    + destruct (IH eq_refl) as [pre Hpre].
      exists (String sep pre).
      change (String sep s = String sep (pre ++ String sep (Py.last (Py.split sep s)))).
      f_equal. exact Hpre.
    + exists "". rewrite (split_single _ _ Hc). reflexivity.
  - intros Hc. destruct (IH Hc) as [pre Hpre].
    destruct (split_many _ _ Hc) as (t & u & ts & Hs).
    rewrite Hs in *. rewrite last_cons_cons in *.
    exists (String c pre).
    change (String c s = String c (pre ++ String sep (Py.last (u :: ts)))).
    f_equal. exact Hpre.
Qed.

Lemma last_split_no_sep sep s : Spec.contains sep (Py.last (Py.split sep s)) = false.
Proof.
  pose proof (split_no_sep sep s) as F.
  destruct (split_cons sep s) as (t & ts & Hs). rewrite Hs in *.
  clear Hs. revert t F. induction ts as [|u ts IH]; intros t F.
  - now inversion F.
  - rewrite last_cons_cons. apply IH. now inversion F.
Qed.

Lemma strip_all_whitespace s : Spec.all_whitespace s = true -> Py.strip s = "".
Proof.
  unfold Py.strip. induction s as [|c s IH]; simpl; [reflexivity|].
  intros H. apply andb_true_iff in H as [H1 H2]. rewrite H1. auto.
Qed.

Lemma isspace_neq c c' : Py.isspace c = false -> Py.isspace c' = true -> Ascii.eqb c' c = false.
Proof.
  intros H H'. destruct (Ascii.eqb c' c) eqn:E; [|reflexivity].
  apply Ascii.eqb_eq in E. congruence.
Qed.

Lemma contains_lstrip c s :
  Py.isspace c = false -> Spec.contains c (Py.lstrip s) = Spec.contains c s.
Proof.
  intros Hc. induction s as [|c' s IH]; simpl; [reflexivity|].
  destruct (Py.isspace c') eqn:E; [|reflexivity].
  now rewrite IH, (isspace_neq _ _ Hc E).
Qed.

Lemma contains_rstrip c s :
  Py.isspace c = false -> Spec.contains c (Py.rstrip s) = Spec.contains c s.
Proof.
  intros Hc. induction s as [|c' s IH]; simpl; [reflexivity|].
  destruct (Py.rstrip s) as [|c'' r] eqn:R.
  - rewrite <- IH. simpl. destruct (Py.isspace c') eqn:E; simpl.
    + now rewrite (isspace_neq _ _ Hc E).
    + reflexivity.
  - rewrite <- IH. reflexivity.
Qed.

Lemma contains_strip c s :
  Py.isspace c = false -> Spec.contains c (Py.strip s) = Spec.contains c s.
Proof.
  intros Hc. unfold Py.strip. now rewrite contains_rstrip, contains_lstrip.
Qed.

Lemma contains_truthy c s : Spec.contains c s = true -> Py.truthy_str s = true.
Proof. destruct s; [discriminate | reflexivity]. Qed.

End Strings.

(** ** The relay command client *)

Section Client.

Import HIDRelayController.

Variable w : Host.world.

Lemma in_time d : (d <= timeout)%Q -> Qle_bool d timeout = true.
Proof. apply Qle_bool_iff. Qed.

Lemma too_late d : (timeout < d)%Q -> Qle_bool d timeout = false.
Proof.
  intros H. destruct (Qle_bool d timeout) eqn:E; [|reflexivity].
  apply Qle_bool_iff in E. exfalso. eapply Qlt_not_le; eassumption.
Qed.

Lemma run_command_success command out :
  Spec.succeeds (w command) out ->
  run_command w command = Py.Return (Some (Py.strip out)).
Proof.
  intros (d & err & Hw & Hd).
  unfold run_command, Host.subprocess_run. rewrite Hw, (in_time _ Hd).
  reflexivity.
Qed.

Lemma run_command_failure command :
  Spec.failure (w command) -> run_command w command = Py.Return None.
Proof.
  unfold run_command, Host.subprocess_run.
  inversion 1 as [ | d rc out err Hd | d rc out err Hrc | msg ]; simpl.
  - reflexivity.
  - now rewrite (too_late _ Hd).
  - destruct (Qle_bool d timeout); simpl; [|reflexivity].
    destruct (Z.eqb_spec rc 0); [contradiction | reflexivity].
  - reflexivity.
Qed.

(** [run_command] absorbs every exception of the invocation. *)
Lemma run_command_returns command :
  exists o, run_command w command = Py.Return o.
Proof.
  unfold run_command, Host.subprocess_run.
  destruct (w command) as [ | msg | d rc out err ]; simpl; eauto.
  destruct (Qle_bool d timeout); simpl; eauto.
  destruct (rc =? 0); eauto.
Qed.

Lemma get_device_state_returns self :
  exists o, get_device_state w self = Py.Return o.
Proof.
  unfold get_device_state.
  destruct (run_command_returns (command_line self ["STATUS"])) as [o ->].
  simpl. destruct o as [out|]; eauto.
  destruct (Py.truthy_str out); eauto.
Qed.

End Client.

(** ** Properties of the client *)

Section ClientClaims.

Import HIDRelayController.


(** C1: for the status line "Device status: 1=OFF 2=ON 3=OFF 4=OFF" of a
    successful status invocation, [get_device_state] returns the tokens
    "1=OFF", "2=ON", "3=OFF", "4=OFF", and reading each token (the part
    after '=' compared with "ON") gives false, true, false, false. *)
Theorem C1_status_line_tokens (w : Host.world) (self : t) (out : string) :
  Spec.succeeds (w (command_line self ["STATUS"])) out ->
  Py.strip out = "Device status: 1=OFF 2=ON 3=OFF 4=OFF" ->
  get_device_state w self
    = Py.Return (Some ["1=OFF"; "2=ON"; "3=OFF"; "4=OFF"])
  /\ map ModernHIDRelayGUI.parse_state ["1=OFF"; "2=ON"; "3=OFF"; "4=OFF"]
     = [false; true; false; false].
Proof.
  intros Hw Hout. split; [|reflexivity].
  unfold get_device_state. rewrite (run_command_success _ _ _ Hw), Hout.
  reflexivity.
Qed.

Lemma C1_status_line_tokens_witness :
  get_device_state (Sample.board "Device status: 1=OFF 2=ON 3=OFF 4=OFF") Sample.client
    = Py.Return (Some ["1=OFF"; "2=ON"; "3=OFF"; "4=OFF"])
  /\ map ModernHIDRelayGUI.parse_state ["1=OFF"; "2=ON"; "3=OFF"; "4=OFF"]
     = [false; true; false; false].
Proof.
  apply (C1_status_line_tokens _ _
           ("Device status: 1=OFF 2=ON 3=OFF 4=OFF" ++ Sample.LF)).
  - sample_succeeds.
  - reflexivity.
Defined.

(** C2: for enumerate, status query, set-channel and set-all alike, each
    of the four failure causes (executable not found, time bound of 10
    exceeded, non-zero exit, any other spawn fault) gives the same
    result, [None] for the two queries and [False] for the two set
    operations, and no operation ever raises, whatever the host does. *)
Theorem C2_failures_collapse (w : Host.world) (self : t) (relay_number state : string) :
  (Spec.failure (w [relay_executable self; "ENUM"]) ->
     enumerate_devices w self = Py.Return None)
  /\ (Spec.failure (w (command_line self ["STATUS"])) ->
     get_device_state w self = Py.Return None)
  /\ (Spec.failure (w (command_line self [state; relay_number])) ->
     set_relay_state w self relay_number state = Py.Return false)
  /\ (Spec.failure (w (command_line self [state; "ALL"])) ->
     set_all_relays w self state = Py.Return false)
  /\ (forall e,
       enumerate_devices w self <> Py.Raise e
       /\ get_device_state w self <> Py.Raise e
       /\ set_relay_state w self relay_number state <> Py.Raise e
       /\ set_all_relays w self state <> Py.Raise e).
Proof.
  repeat apply conj.
  - intros H. unfold enumerate_devices. now apply run_command_failure.
  - intros H. unfold get_device_state. now rewrite (run_command_failure _ _ H).
  - intros H. unfold set_relay_state. now rewrite (run_command_failure _ _ H).
  - intros H. unfold set_all_relays. now rewrite (run_command_failure _ _ H).
  - intros e. repeat apply conj.
    + unfold enumerate_devices.
      destruct (run_command_returns w [relay_executable self; "ENUM"]) as [o ->].
      discriminate.
    + destruct (get_device_state_returns w self) as [o ->]. discriminate.
    + unfold set_relay_state.
      destruct (run_command_returns w (command_line self [state; relay_number]))
        as [o ->].
      discriminate.
    + unfold set_all_relays.
      destruct (run_command_returns w (command_line self [state; "ALL"])) as [o ->].
      discriminate.
Qed.

Lemma C2_failures_collapse_witness :
  enumerate_devices Sample.failing_host Sample.client = Py.Return None
  /\ get_device_state Sample.failing_host Sample.client = Py.Return None
  /\ set_relay_state Sample.failing_host Sample.client "2" "ON" = Py.Return false
  /\ set_all_relays Sample.failing_host Sample.client "ON" = Py.Return false.
Proof.
  destruct (C2_failures_collapse Sample.failing_host Sample.client "2" "ON")
    as (H1 & H2 & H3 & H4 & _).
  repeat apply conj.
  - apply H1. apply Spec.executable_not_found.
  - apply H2. apply Spec.timeout_exceeded. unfold timeout, Qlt. simpl. lia.
  - apply H3. apply Spec.non_zero_exit. lia.
  - apply H4. apply Spec.spawn_fault.
Defined.

Lemma detect_relay_count_returns (w : Host.world) (self : t) :
  exists n, detect_relay_count w self = Py.Return n.
Proof.
  unfold detect_relay_count.
  destruct (get_device_state_returns w self) as [states ->]. simpl. eauto.
Qed.

(** C6: [detect_relay_count] returns 0 whenever [get_device_state]
    returns [None], and the length of the token list otherwise; both
    always return. *)
Theorem C6_detect_relay_count (w : Host.world) (self : t) :
  exists states,
    get_device_state w self = Py.Return states
    /\ detect_relay_count w self
       = Py.Return (match states with
                    | None => 0
                    | Some tokens => Py.len tokens
                    end).
Proof.
  destruct (get_device_state_returns w self) as [states Hs].
  exists states. split; [exact Hs|].
  unfold detect_relay_count. rewrite Hs. simpl.
  destruct states as [[|t ts]|]; reflexivity.
Qed.

(** C7, as stated, fails: the status part is cut at every single space
    (and at nothing else), so two spaces leave an empty token between
    two tokens and a tab separates nothing. *)
Lemma C7_split_on_whitespace_counterexample :
  let two_spaces := "Device status: 1=ON  2=OFF" in
  let tab := "Device status: 1=ON" ++ Sample.TAB ++ "2=OFF" in
  get_device_state (Sample.board two_spaces) Sample.client
    = Py.Return (Some ["1=ON"; ""; "2=OFF"])
  /\ Spec.split_whitespace "1=ON  2=OFF" = ["1=ON"; "2=OFF"]
  /\ get_device_state (Sample.board two_spaces) Sample.client
     <> Py.Return (Some (Spec.split_whitespace "1=ON  2=OFF"))
  /\ get_device_state (Sample.board tab) Sample.client
     = Py.Return (Some ["1=ON" ++ Sample.TAB ++ "2=OFF"])
  /\ Spec.split_whitespace ("1=ON" ++ Sample.TAB ++ "2=OFF") = ["1=ON"; "2=OFF"]
  /\ get_device_state (Sample.board tab) Sample.client
     <> Py.Return (Some (Spec.split_whitespace ("1=ON" ++ Sample.TAB ++ "2=OFF"))).
Proof.
  repeat apply conj; try reflexivity; vm_compute; discriminate.
Qed.

(** C7, amended: for every successful status invocation whose output
    contains a colon, [get_device_state] takes the part after the last
    colon, strips it, and cuts it at every single space character: the
    tokens glued back with single spaces give the stripped part, and no
    token contains a space. *)
Theorem C7_status_tokens (w : Host.world) (self : t) (out : string) :
  Spec.succeeds (w (command_line self ["STATUS"])) out ->
  Spec.contains ":" out = true ->
  exists pre rest tokens,
    Py.strip out = pre ++ String ":" rest
    /\ Spec.contains ":" rest = false
    /\ get_device_state w self = Py.Return (Some tokens)
    /\ Py.join " " tokens = Py.strip rest
    /\ Forall (fun t => Spec.contains " " t = false) tokens.
Proof.
  intros Hw Hc.
  assert (Spec.contains ":" (Py.strip out) = true) as Hc'
    by (rewrite contains_strip; [exact Hc | reflexivity]).
  destruct (last_split_suffix _ _ Hc') as [pre Hpre].
  set (rest := Py.last (Py.split ":" (Py.strip out))) in *.
  exists pre, rest, (Py.split " " (Py.strip rest)).
  repeat apply conj.
  - exact Hpre.
  - apply last_split_no_sep.
  - unfold get_device_state. rewrite (run_command_success _ _ _ Hw). simpl.
    now rewrite (contains_truthy _ _ Hc').
  - apply join_split.
  - apply split_no_sep.
Qed.

Lemma C7_status_tokens_witness :
  exists pre rest tokens,
    Py.strip ("Device status: 1=OFF 2=ON" ++ Sample.LF) = pre ++ String ":" rest
    /\ Spec.contains ":" rest = false
    /\ get_device_state (Sample.board "Device status: 1=OFF 2=ON") Sample.client
       = Py.Return (Some tokens)
    /\ Py.join " " tokens = Py.strip rest
    /\ Forall (fun t => Spec.contains " " t = false) tokens.
Proof.
  apply (C7_status_tokens (Sample.board "Device status: 1=OFF 2=ON") Sample.client).
  - sample_succeeds.
  - reflexivity.
Defined.

End ClientClaims.

(** ** Properties of the executable locator *)

Section Locator.

Import HIDRelayController.





End Locator.

(** ** The channel state dictionary *)

Section States.

Import ModernHIDRelayGUI.

Lemma elem_of_range1 (n i : Z) : i ∈ Py.range1 n <-> 1 <= i <= n.
Proof.
  unfold Py.range1. rewrite list_elem_of_In, in_map_iff. split.
  - intros (k & <- & Hk). apply in_seq in Hk. lia.
  - intros H. exists (Z.to_nat i). split; [lia|]. apply in_seq. lia.
Qed.

Lemma fill_list_lookup (v : bool) (l : list Z) (m : gmap Z bool) (i : Z) :
  fold_left (fun m i => <[i := v]> m) l m !! i
  = if decide (i ∈ l) then Some v else m !! i.
Proof.
  revert m. induction l as [|k l IH]; intros m; cbn [fold_left].
  - rewrite decide_False; [reflexivity | apply not_elem_of_nil].
  - rewrite IH. destruct (decide (i ∈ l)) as [Hl|Hl].
    + rewrite decide_True; [reflexivity | now apply list_elem_of_further].
    + destruct (decide (i = k)) as [->|Hk].
      * rewrite lookup_insert_eq, decide_True; [reflexivity | apply list_elem_of_here].
      * rewrite lookup_insert_ne by congruence.
        rewrite decide_False; [reflexivity|].
        intros H. apply elem_of_cons in H as [?|?]; contradiction.
Qed.

(** After [for i in range(1, n + 1): states[i] = v] the keys [1..n]
    hold [v] and every other key is as before. *)
Lemma fill_states_lookup (v : bool) (n : Z) (m : gmap Z bool) (i : Z) :
  fill_states v n m !! i = if decide (1 <= i <= n) then Some v else m !! i.
Proof.
  unfold fill_states. rewrite fill_list_lookup.
  destruct (decide (i ∈ Py.range1 n)) as [H|H];
    rewrite elem_of_range1 in H;
    [rewrite decide_True | rewrite decide_False]; auto.
Qed.

Lemma elem_of_channels (n i : Z) : i ∈ Spec.channels n <-> 1 <= i <= n.
Proof. unfold Spec.channels. rewrite elem_of_list_to_set. apply elem_of_range1. Qed.

Lemma dom_fill_states (v : bool) (n : Z) (m : gmap Z bool) :
  dom (fill_states v n m) = Spec.channels n ∪ dom m.
Proof.
  apply set_eq. intros i.
  rewrite elem_of_union, !elem_of_dom, elem_of_channels, fill_states_lookup.
  case_decide as H.
  - split; [now left | intros _; eauto].
  - split; [now right | intros [?|?]; [contradiction | assumption]].
Qed.

Lemma update_one_lookup (m : gmap Z bool) (k : Z) (state_str : string) (i : Z) :
  update_one m (k, state_str) !! i
  = match m !! i with
    | None => None
    | Some b => Some (if decide (i = k) then parse_state state_str else b)
    end.
Proof.
  unfold update_one. destruct (m !! k) as [b|] eqn:Hk.
  - destruct (Bool.eqb b (parse_state state_str)) eqn:E; simpl.
    + apply Bool.eqb_prop in E. destruct (m !! i) as [b'|] eqn:Hi; [|reflexivity].
      case_decide; [|reflexivity]. subst. congruence.
    + destruct (decide (i = k)) as [->|Hne].
      * now rewrite lookup_insert_eq, Hk.
      * rewrite lookup_insert_ne by congruence. now destruct (m !! i).
  - destruct (m !! i) as [b'|] eqn:Hi; [|reflexivity].
    case_decide; [|reflexivity]. subst. congruence.
Qed.

(** What one pass over the tokens leaves in the dictionary: a key that
    is present takes the state of its token when there is one, and a
    key that is absent stays absent. *)
Lemma update_fold_lookup (tokens : list string) (k : Z) (m : gmap Z bool) (i : Z) :
  fold_left update_one (Py.enumerate k tokens) m !! i
  = match m !! i with
    | None => None
    | Some b =>
        Some (match (if decide (k <= i) then tokens !! Z.to_nat (i - k) else None) with
              | Some state_str => parse_state state_str
              | None => b
              end)
    end.
Proof.
  revert k m. induction tokens as [|t tokens IH]; intros k m;
    cbn [fold_left Py.enumerate].
  - destruct (m !! i); [|reflexivity]. f_equal.
    case_decide; [now rewrite lookup_nil | reflexivity].
  - rewrite IH, update_one_lookup.
    destruct (m !! i) as [b|]; [|reflexivity]. f_equal.
    destruct (decide (i = k)) as [->|Hne].
    + rewrite decide_False by lia. rewrite decide_True by lia.
      now replace (Z.to_nat (k - k)) with 0%nat by lia.
    + destruct (decide (k + 1 <= i)) as [H|H].
      * rewrite decide_True by lia.
        replace (Z.to_nat (i - k)) with (S (Z.to_nat (i - (k + 1)))) by lia.
        reflexivity.
      * rewrite decide_False by lia. reflexivity.
Qed.

Lemma dom_update_fold (tokens : list string) (k : Z) (m : gmap Z bool) :
  dom (fold_left update_one (Py.enumerate k tokens) m) = dom m.
Proof.
  apply set_eq. intros i. rewrite !elem_of_dom, update_fold_lookup.
  destruct (m !! i); [split; eauto | reflexivity].
Qed.

End States.

(** ** Properties of the session *)

Section Session.

Import HIDRelayController ModernHIDRelayGUI.

(** The detection thread always ends, with a call-back decided by the
    enumeration result alone. *)
Lemma detection_thread_cases (w : Host.world) (self : t) :
  exists devices_info n,
    enumerate_devices w (controller self) = Py.Return devices_info
    /\ detect_relay_count w (controller self) = Py.Return n
    /\ detection_thread w self
       = Py.Return
           (if Py.truthy_opt_str devices_info
            then (set_relay_count (if n >? 0 then n else 4) self,
                  call_on_device_detected)
            else (self, call_on_detection_failed no_device_msg)).
Proof.
  destruct (run_command_returns w [relay_executable (controller self); "ENUM"])
    as [devices_info He].
  destruct (detect_relay_count_returns w (controller self)) as [n Hn].
  exists devices_info, n. unfold detection_thread, enumerate_devices.
  rewrite He, Hn. simpl. repeat split.
  destruct (Py.truthy_opt_str devices_info); [|reflexivity].
  destruct (n >? 0); reflexivity.
Qed.

(** C4, as stated, fails: a board that is listed but gives no channel
    count (here the status request exits with status 1) is still
    detected, with a count of 4. *)
Lemma C4_zero_count_counterexample :
  enumerate_devices Sample.mute_board (controller Sample.gui0)
    = Py.Return (Some "5291D:R1")
  /\ detect_relay_count Sample.mute_board (controller Sample.gui0) = Py.Return 0
  /\ exists self',
       detect_device Sample.mute_board Sample.gui0 = Py.Return self'
       /\ Spec.phase_of self' = Spec.Detected
       /\ Spec.phase_of self' <> Spec.Idle
       /\ relay_count self' = 4.
Proof.
  repeat apply conj; [vm_compute; reflexivity | vm_compute; reflexivity |].
  eexists. split; [vm_compute; reflexivity|].
  repeat apply conj; [reflexivity | discriminate | reflexivity].
Qed.

(** C4, amended: detection issues the enumeration and, when its result
    is non-empty, the channel count; the session becomes Detected
    exactly when the enumeration result is non-empty, with the detected
    count when that is non-zero and with 4 channels otherwise; with an
    empty or absent enumeration result it returns to Idle with the
    detection-failed call-back and keeps its channel count. *)
Theorem C4_detection_outcome (w : Host.world) (self : t) :
  is_connected self = false ->
  exists devices_info n mid cb self',
    enumerate_devices w (controller self) = Py.Return devices_info
    /\ detect_relay_count w (controller self) = Py.Return n
    /\ detection_thread w (set_buttons DISABLED (connect_btn self) self)
       = Py.Return (mid, cb)
    /\ detect_device w self = Py.Return self'
    /\ if Py.truthy_opt_str devices_info
       then cb = call_on_device_detected
            /\ Spec.phase_of self' = Spec.Detected
            /\ relay_count self' = (if n >? 0 then n else 4)
       else cb = call_on_detection_failed no_device_msg
            /\ Spec.phase_of self' = Spec.Idle
            /\ relay_count self' = relay_count self.
Proof.
  intros Hc.
  destruct (detection_thread_cases w (set_buttons DISABLED (connect_btn self) self))
    as (devices_info & n & He & Hn & Ht).
  simpl in He, Hn. unfold detect_device. rewrite Ht.
  exists devices_info, n.
  destruct (Py.truthy_opt_str devices_info); do 3 eexists;
    (split; [exact He|]); (split; [exact Hn|]);
    (split; [reflexivity|]); (split; [reflexivity|]);
    unfold Spec.phase_of; simpl; rewrite Hc; auto.
Qed.

Lemma C4_detection_outcome_witness :
  exists devices_info n mid cb self',
    enumerate_devices Sample.mute_board (controller Sample.gui0)
      = Py.Return devices_info
    /\ detect_relay_count Sample.mute_board (controller Sample.gui0) = Py.Return n
    /\ detection_thread Sample.mute_board
         (set_buttons DISABLED (connect_btn Sample.gui0) Sample.gui0)
       = Py.Return (mid, cb)
    /\ detect_device Sample.mute_board Sample.gui0 = Py.Return self'
    /\ if Py.truthy_opt_str devices_info
       then cb = call_on_device_detected
            /\ Spec.phase_of self' = Spec.Detected
            /\ relay_count self' = (if n >? 0 then n else 4)
       else cb = call_on_detection_failed no_device_msg
            /\ Spec.phase_of self' = Spec.Idle
            /\ relay_count self' = relay_count Sample.gui0.
Proof.
  apply (C4_detection_outcome Sample.mute_board Sample.gui0). reflexivity.
Defined.

(** [connect] sets the keys [1..relay_count] to [False] and leaves every
    other key of the dictionary as it was. *)
Lemma connect_relay_states (self : t) (i : Z) :
  relay_count self <> 0 ->
  relay_states (connect self) !! i
  = if decide (1 <= i <= relay_count self) then Some false
    else relay_states self !! i.
Proof.
  intros Hn. unfold connect.
  destruct (Z.eqb_spec (relay_count self) 0); [contradiction|].
  simpl. apply fill_states_lookup.
Qed.

(** On a dictionary that is empty, as on the first connection, the keys
    after [connect] are exactly [1..relay_count]. *)
Lemma connect_first (self : t) :
  relay_count self <> 0 -> relay_states self = ∅ ->
  dom (relay_states (connect self)) = Spec.channels (relay_count self).
Proof.
  intros Hn He. unfold connect.
  destruct (Z.eqb_spec (relay_count self) 0); [contradiction|].
  simpl. rewrite dom_fill_states, He, dom_empty_L. apply (right_id_L ∅ (∪)).
Qed.

(** C5 fails on a session that connects an eight channel board, switches
    all channels on, disconnects and connects a four channel board: after
    the second [connect] the dictionary still has eight keys, and
    channels 5 to 8 are still on. *)
Theorem C5_stale_channels_after_reconnect :
  exists self,
    Sample.reconnect_session = Py.Return self
    /\ is_connected self = true
    /\ relay_count self = 4
    /\ size (relay_states self) = 8%nat
    /\ relay_states self !! 4 = Some false
    /\ relay_states self !! 5 = Some true
    /\ relay_states self !! 8 = Some true.
Proof.
  eexists. split; [vm_compute; reflexivity|]. repeat apply conj; vm_compute; reflexivity.
Qed.

(** C8: when the set request fails, [toggle_relay], [turn_all_on] and
    [turn_all_off] return the session as it was, so no entry of
    [relay_states] is flipped or rewritten. *)
Theorem C8_failed_set_keeps_states (w : Host.world) (self : t) (relay_num : Z) :
  (set_relay_state w (controller self) (Py.str relay_num)
     (if get_state (relay_states self) relay_num then "OFF" else "ON")
   = Py.Return false ->
   exists self', toggle_relay w relay_num self = Py.Return self'
                 /\ relay_states self' = relay_states self)
  /\ (set_all_relays w (controller self) "ON" = Py.Return false ->
      exists self', turn_all_on w self = Py.Return self'
                    /\ relay_states self' = relay_states self)
  /\ (set_all_relays w (controller self) "OFF" = Py.Return false ->
      exists self', turn_all_off w self = Py.Return self'
                    /\ relay_states self' = relay_states self).
Proof.
  repeat apply conj; intros H; exists self; (split; [|reflexivity]).
  - unfold toggle_relay. destruct (is_connected self); simpl; [|reflexivity].
    now rewrite H.
  - unfold turn_all_on. now rewrite H.
  - unfold turn_all_off. now rewrite H.
Qed.

Lemma C8_failed_set_keeps_states_witness :
  (exists self', toggle_relay Sample.failing_host 2 Sample.connected4 = Py.Return self'
                 /\ relay_states self' = relay_states Sample.connected4)
  /\ (exists self', turn_all_on Sample.failing_host Sample.connected4 = Py.Return self'
                    /\ relay_states self' = relay_states Sample.connected4)
  /\ (exists self', turn_all_off Sample.failing_host Sample.connected4 = Py.Return self'
                    /\ relay_states self' = relay_states Sample.connected4).
Proof.
  destruct (C8_failed_set_keeps_states Sample.failing_host Sample.connected4 2)
    as (H1 & H2 & H3).
  repeat apply conj; [apply H1 | apply H2 | apply H3]; vm_compute; reflexivity.
Defined.

(** C9: an invocation that exits with status 0 and prints white space
    only counts as a success of [run_command], which returns the empty
    string, and as a failure one level up: [get_device_state] returns
    [None], and detection takes the detection-failed branch and leaves
    the session idle. *)
Theorem C9_blank_output_fails (w : Host.world) (self : t) (out : string) :
  Spec.all_whitespace out = true ->
  (Spec.succeeds (w (command_line (controller self) ["STATUS"])) out ->
   run_command w (command_line (controller self) ["STATUS"]) = Py.Return (Some "")
   /\ get_device_state w (controller self) = Py.Return None)
  /\ (Spec.succeeds (w [relay_executable (controller self); "ENUM"]) out ->
      enumerate_devices w (controller self) = Py.Return (Some "")
      /\ detection_thread w self
         = Py.Return (self, call_on_detection_failed no_device_msg)
      /\ exists self', detect_device w self = Py.Return self'
                       /\ connect_btn self' = DISABLED
                       /\ relay_count self' = relay_count self
                       /\ (is_connected self = false ->
                           Spec.phase_of self' = Spec.Idle)).
Proof.
  intros Hws. split; intros Hw.
  - pose proof (run_command_success _ _ _ Hw) as Hr.
    rewrite (strip_all_whitespace _ Hws) in Hr.
    split; [exact Hr|]. unfold get_device_state. now rewrite Hr.
  - pose proof (run_command_success _ _ _ Hw) as Hr.
    rewrite (strip_all_whitespace _ Hws) in Hr.
    split; [exact Hr|].
    assert (forall s, controller s = controller self ->
              detection_thread w s
              = Py.Return (s, call_on_detection_failed no_device_msg)) as Hd.
    { intros s Hs. unfold detection_thread, enumerate_devices.
      now rewrite Hs, Hr. }
    split; [now apply Hd|].
    unfold detect_device. rewrite Hd by reflexivity. simpl.
    eexists. split; [reflexivity|]. repeat apply conj; try reflexivity.
    intros Hc. unfold Spec.phase_of. simpl. now rewrite Hc.
Qed.

Lemma C9_blank_output_fails_witness :
  (run_command Sample.blank_tool (command_line (controller Sample.gui0) ["STATUS"])
     = Py.Return (Some "")
   /\ get_device_state Sample.blank_tool (controller Sample.gui0) = Py.Return None)
  /\ (enumerate_devices Sample.blank_tool (controller Sample.gui0) = Py.Return (Some "")
      /\ detection_thread Sample.blank_tool Sample.gui0
         = Py.Return (Sample.gui0, call_on_detection_failed no_device_msg)
      /\ exists self', detect_device Sample.blank_tool Sample.gui0 = Py.Return self'
                       /\ connect_btn self' = DISABLED
                       /\ relay_count self' = relay_count Sample.gui0
                       /\ Spec.phase_of self' = Spec.Idle).
Proof.
  split.
  - apply (proj1 (C9_blank_output_fails Sample.blank_tool Sample.gui0
                    (Sample.TAB ++ Sample.LF) eq_refl)).
    sample_succeeds.
  - destruct (proj2 (C9_blank_output_fails Sample.blank_tool Sample.gui0
                       (" " ++ Sample.LF) eq_refl))
      as (He & Hd & self' & Hs & Hb & Hn & Hp).
    + sample_succeeds.
    + repeat apply conj; [exact He | exact Hd |].
      exists self'. repeat apply conj; [exact Hs | exact Hb | exact Hn |].
      apply Hp. reflexivity.
Defined.

Lemma update_status_step_keeps_dom (w : Host.world) (self : t) :
  exists self',
    update_status_step w self = Py.Return self'
    /\ dom (relay_states self') = dom (relay_states self).
Proof.
  unfold update_status_step.
  destruct (is_connected self); [|exists self; auto].
  destruct (get_device_state_returns w (controller self)) as [states ->].
  simpl. destruct states as [[|t tokens]|]; simpl; try (exists self; now auto).
  eexists. split; [reflexivity|]. apply (dom_update_fold (t :: tokens) 1).
Qed.

(** C10, as stated, fails in its last clause: the loop looks at the keys
    of the dictionary, not at the channel count.  In the session that
    connected eight channels, switched them on and reconnected with four,
    the count is 4 and the keys 5 to 8 are still there; a status line
    with eight tokens then rewrites channel 5, whose token lies beyond
    the channel count. *)
Lemma C10_token_beyond_count_counterexample :
  exists self self',
    Sample.reconnect_session = Py.Return self
    /\ relay_count self = 4
    /\ relay_states self !! 5 = Some true
    /\ update_status_step (Sample.board Sample.status8) self = Py.Return self'
    /\ relay_states self' !! 5 = Some false
    /\ relay_states self' !! 5 <> relay_states self !! 5.
Proof.
  do 2 eexists. split; [vm_compute; reflexivity|].
  split; [reflexivity|]. split; [reflexivity|].
  split; [vm_compute; reflexivity|].
  split; [reflexivity | discriminate].
Qed.

(** C10, amended: one turn of the polling loop always returns, and it
    neither adds nor removes a channel: it writes only to keys that
    [relay_states] already has, so the keys are the same before and
    after, and a token whose position is not a key is ignored, however
    many tokens the device reports; the channel count is not touched.
    When the dictionary has no key beyond the channel count, the tokens
    beyond the count are ignored. *)
Theorem C10_polling_writes_present_keys (w : Host.world) (self : t) :
  exists self',
    update_status_step w self = Py.Return self'
    /\ dom (relay_states self') = dom (relay_states self)
    /\ (forall i, relay_states self !! i = None -> relay_states self' !! i = None)
    /\ relay_count self' = relay_count self
    /\ ((forall i, relay_count self < i -> relay_states self !! i = None) ->
        forall i, relay_count self < i ->
                  relay_states self' !! i = relay_states self !! i).
Proof.
  assert (exists self',
             update_status_step w self = Py.Return self'
             /\ dom (relay_states self') = dom (relay_states self)
             /\ (forall i, relay_states self !! i = None ->
                           relay_states self' !! i = None)
             /\ relay_count self' = relay_count self) as (self' & Hs & Hd & Ha & Hn).
  { unfold update_status_step.
    destruct (is_connected self); [|exists self; auto].
    destruct (get_device_state_returns w (controller self)) as [states ->].
    simpl. destruct states as [[|t tokens]|]; simpl; try (exists self; now auto).
    eexists. split; [reflexivity|]. simpl. repeat apply conj.
    - apply (dom_update_fold (t :: tokens) 1).
    - intros i Hi.
      pose proof (update_fold_lookup (t :: tokens) 1 (relay_states self) i) as L.
      rewrite Hi in L. exact L.
    - reflexivity. }
  exists self'. repeat apply conj; try assumption.
  intros Hk i Hi. rewrite (Hk i Hi). apply Ha, Hk, Hi.
Qed.

Lemma C10_polling_writes_present_keys_witness :
  exists self',
    update_status_step (Sample.board Sample.status8) Sample.connected4
      = Py.Return self'
    /\ dom (relay_states self') = dom (relay_states Sample.connected4)
    /\ relay_states self' !! 5 = None
    /\ relay_count self' = 4
    /\ (forall i, relay_count Sample.connected4 < i ->
                  relay_states self' !! i = relay_states Sample.connected4 !! i).
Proof.
  destruct (C10_polling_writes_present_keys (Sample.board Sample.status8)
              Sample.connected4) as (self' & Hs & Hd & Ha & Hn & Hb).
  exists self'. repeat apply conj; [exact Hs | exact Hd | | exact Hn |].
  - apply Ha. vm_compute. reflexivity.
  - apply Hb. intros i Hi.
    change (relay_states Sample.connected4)
      with (fill_states false 4 (∅ : gmap Z bool)).
    rewrite fill_states_lookup. change (relay_count Sample.connected4) with 4 in Hi.
    rewrite decide_False by lia. apply lookup_empty.
Defined.

(** The same over any number of turns of the loop. *)
Lemma update_status_loop_keeps_channels (ws : list Host.world) (self : t) :
  exists self',
    update_status_loop ws self = Py.Return self'
    /\ dom (relay_states self') = dom (relay_states self).
Proof.
  revert self. induction ws as [|w ws IH]; intros self; simpl.
  - exists self. auto.
  - destruct (status_update_running self); [|exists self; auto].
    destruct (update_status_step_keeps_dom w self) as (s1 & -> & H1).
    simpl. destruct (IH s1) as (s2 & -> & H2).
    exists s2. split; [reflexivity | congruence].
Qed.

End Session.


(** ** Further properties of the client *)

Section ClientMore.

Import HIDRelayController.

Lemma lstrip_head s c r : Py.lstrip s = String c r -> Py.isspace c = false.
Proof.
  induction s as [|c' s IH]; simpl; [discriminate|].
  destruct (Py.isspace c') eqn:E; [exact IH|].
  intros H. injection H as -> _. exact E.
Qed.

Lemma lstrip_fixed c r : Py.isspace c = false -> Py.lstrip (String c r) = String c r.
Proof. intros H. simpl. now rewrite H. Qed.

Lemma rstrip_rstrip s : Py.rstrip (Py.rstrip s) = Py.rstrip s.
Proof.
  induction s as [|c s IH]; simpl; [reflexivity|].
  destruct (Py.rstrip s) as [|c' r] eqn:R.
  - destruct (Py.isspace c) eqn:E; simpl; [reflexivity | now rewrite E].
  - change (Py.rstrip (String c (String c' r))) with
      (match Py.rstrip (String c' r) with
       | EmptyString => if Py.isspace c then EmptyString else String c EmptyString
       | r' => String c r'
       end).
    now rewrite IH.
Qed.

Lemma rstrip_head c r :
  Py.isspace c = false -> exists r', Py.rstrip (String c r) = String c r'.
Proof.
  intros H. simpl. destruct (Py.rstrip r); [rewrite H|]; eauto.
Qed.

(** Stripping twice is stripping once. *)
Lemma strip_strip s : Py.strip (Py.strip s) = Py.strip s.
Proof.
  unfold Py.strip. destruct (Py.lstrip s) as [|c r] eqn:L; [reflexivity|].
  pose proof (lstrip_head _ _ _ L) as Hc.
  destruct (rstrip_head c r Hc) as [r' Hr]. rewrite Hr.
  rewrite (lstrip_fixed _ _ Hc), <- Hr. apply rstrip_rstrip.
Qed.

(** X1: whatever [run_command] returns is already trimmed: stripping it
    again changes nothing. *)
Theorem run_command_trimmed (w : Host.world) (command : list string) (s : string) :
  run_command w command = Py.Return (Some s) -> Py.strip s = s.
Proof.
  unfold run_command, Host.subprocess_run.
  destruct (w command) as [ | msg | d rc out err ]; simpl; try discriminate.
  destruct (Qle_bool d timeout); simpl; [|discriminate].
  destruct (rc =? 0); [|discriminate].
  intros H. injection H as <-. apply strip_strip.
Qed.

Lemma run_command_trimmed_witness :
  Py.strip "5291D:R1" = "5291D:R1".
Proof.
  apply (run_command_trimmed (Sample.board Sample.status4) ["hidusb-relay-cmd"; "ENUM"]).
  reflexivity.
Defined.

(** What [run_command] returns, read off the behaviour of the host. *)
Lemma run_command_some (w : Host.world) (command : list string) (s : string) :
  run_command w command = Py.Return (Some s) <->
  exists out, Spec.succeeds (w command) out /\ s = Py.strip out.
Proof.
  split.
  - unfold run_command, Host.subprocess_run, Spec.succeeds.
    destruct (w command) as [ | msg | d rc out err ]; simpl; try discriminate.
    destruct (Qle_bool d timeout) eqn:Hd; simpl; [|discriminate].
    destruct (Z.eqb_spec rc 0) as [->|]; [|discriminate].
    intros H. injection H as <-. exists out. split; [|reflexivity].
    exists d, err. split; [reflexivity | now apply Qle_bool_iff].
  - intros (out & Hs & ->). now apply run_command_success.
Qed.

(** [get_device_state] never returns an empty list. *)
Lemma get_device_state_not_nil (w : Host.world) (self : t) :
  get_device_state w self <> Py.Return (Some []).
Proof.
  unfold get_device_state.
  destruct (run_command w (command_line self ["STATUS"])) as [[s|]|e]; simpl;
    try discriminate.
  destruct (Py.truthy_str s); [|discriminate].
  intros H. injection H as H. eapply split_not_nil, H.
Qed.

(** X2: [get_device_state] answers with a token list exactly when the
    status invocation ends in time with exit status 0 and prints
    something other than white space; the list is then never empty. *)
Theorem status_answer_iff (w : Host.world) (self : t) :
  ((exists tokens, get_device_state w self = Py.Return (Some tokens)) <->
   (exists out, Spec.succeeds (w (command_line self ["STATUS"])) out
                /\ Py.strip out <> ""))
  /\ get_device_state w self <> Py.Return (Some []).
Proof.
  split; [|apply get_device_state_not_nil].
  unfold get_device_state.
  destruct (run_command w (command_line self ["STATUS"])) as [[s|]|e] eqn:Hr; simpl.
  - apply run_command_some in Hr as (out & Hs & ->).
    destruct (Py.strip out) as [|c r] eqn:Ho; simpl.
    + split.
      * intros [? ?]. discriminate.
      * intros (out' & (d' & err' & Hw' & _) & Hne).
        destruct Hs as (d & err & Hw & _). rewrite Hw in Hw'.
        injection Hw' as _ <- _. contradiction.
    + split; [|eauto]. intros _. exists out. split; [exact Hs|].
      rewrite Ho. discriminate.
  - split.
    + intros [? ?]. discriminate.
    + intros (out & Hs & _). rewrite (run_command_success _ _ _ Hs) in Hr.
      discriminate.
  - destruct (run_command_returns w (command_line self ["STATUS"])) as [o Ho].
    congruence.
Qed.

(** X3: the channel count that [detect_relay_count] returns is never
    negative, and it is 0 exactly when [get_device_state] returns [None]:
    any answer, even a status line with nothing after its colon, counts
    at least one channel. *)
Theorem detect_count_zero_iff (w : Host.world) (self : t) :
  exists n,
    detect_relay_count w self = Py.Return n
    /\ 0 <= n
    /\ (n = 0 <-> get_device_state w self = Py.Return None).
Proof.
  pose proof (get_device_state_not_nil w self) as Hnil.
  unfold detect_relay_count.
  destruct (get_device_state_returns w self) as [states Hs].
  rewrite Hs in *. simpl. eexists. split; [reflexivity|].
  destruct states as [[|t tokens]|].
  - contradiction.
  - unfold Py.len. simpl. split; [lia|]. split; [lia | discriminate].
  - split; [lia|]. split; reflexivity.
Qed.

Example status_line_without_states :
  get_device_state (Sample.board "Device status:") Sample.client
    = Py.Return (Some [""])
  /\ detect_relay_count (Sample.board "Device status:") Sample.client = Py.Return 1.
Proof. split; reflexivity. Qed.

Lemma last_split_app sep pre rest :
  Py.last (Py.split sep (pre ++ String sep rest)) = Py.last (Py.split sep rest).
Proof.
  induction pre as [|c pre IH].
  - change ("" ++ String sep rest) with (String sep rest). simpl.
    rewrite Ascii.eqb_refl.
    destruct (split_cons sep rest) as (t & ts & ->). reflexivity.
  - change (String c pre ++ String sep rest) with (String c (pre ++ String sep rest)).
    simpl.
    assert (Spec.contains sep (pre ++ String sep rest) = true) as Hc.
    { clear. induction pre as [|c' pre IH].
      - change ("" ++ String sep rest) with (String sep rest). simpl.
        now rewrite Ascii.eqb_refl.
      - change (String c' pre ++ String sep rest)
          with (String c' (pre ++ String sep rest)).
        simpl. rewrite IH. apply orb_true_r. }
    destruct (split_many _ _ Hc) as (t & u & ts & Hs). rewrite Hs in *.
    destruct (Ascii.eqb c sep); rewrite last_cons_cons; [exact IH|].
    rewrite last_cons_cons in IH. exact IH.
Qed.

(** X4: a token is read as on exactly when it is "ON" or ends in "=ON";
    the channel number written before the '=' plays no part. *)
Theorem parse_state_iff (state_str : string) :
  ModernHIDRelayGUI.parse_state state_str = true
  <-> state_str = "ON" \/ exists pre, state_str = pre ++ "=ON".
Proof.
  unfold ModernHIDRelayGUI.parse_state. rewrite String.eqb_eq. split.
  - intros H. destruct (Spec.contains "=" state_str) eqn:Hc.
    + right. destruct (last_split_suffix _ _ Hc) as [pre Hpre].
      exists pre. now rewrite H in Hpre.
    + left. now rewrite (split_single _ _ Hc) in H.
  - intros [->|[pre ->]]; [reflexivity|].
    change "=ON" with (String "=" "ON"). now rewrite last_split_app.
Qed.

(** X5: in a program that is not bundled the first path tried is the one
    in the working directory, so a copy of the tool there is returned
    whether or not the script directory holds one too. *)
Theorem working_directory_first (fs : Host.filesystem) :
  Host.MEIPASS fs = None ->
  Host.path_exists fs (Host.path_join fs (Host.getcwd fs) (exe_name fs)) = true ->
  get_relay_executable fs = Host.path_join fs (Host.getcwd fs) (exe_name fs).
Proof.
  intros Hm He. unfold get_relay_executable, get_resource_path.
  rewrite Hm. now rewrite He.
Qed.

Lemma working_directory_first_witness :
  get_relay_executable Sample.script_fs = "/home/lab/hidusb-relay-cmd".
Proof.
  apply (working_directory_first Sample.script_fs); reflexivity.
Defined.

End ClientMore.

(** ** Further properties of the session operations *)

Section SessionMore.

Import HIDRelayController ModernHIDRelayGUI.

Lemma set_relay_states_id (self : t) : set_relay_states (relay_states self) self = self.
Proof. now destruct self. Qed.

Lemma update_status_step_answer (w : Host.world) (self : t) (tokens : list string) :
  is_connected self = true ->
  get_device_state w (controller self) = Py.Return (Some tokens) ->
  update_status_step w self
  = Py.Return (set_relay_states
                 (fold_left update_one (Py.enumerate 1 tokens) (relay_states self))
                 self).
Proof.
  intros Hc Hs. unfold update_status_step. rewrite Hc, Hs. simpl.
  destruct tokens; [|reflexivity]. simpl. now rewrite set_relay_states_id.
Qed.

Lemma update_status_step_none (w : Host.world) (self : t) :
  get_device_state w (controller self) = Py.Return None ->
  update_status_step w self = Py.Return self.
Proof.
  intros Hs. unfold update_status_step. rewrite Hs.
  now destruct (is_connected self).
Qed.

(** X6: a polling turn of a connected session that gets an answer makes
    every channel it knows follow the device: the key at position [i]
    takes the state of the [i]-th token, a key beyond the last token
    keeps its state, and nothing else in the session changes. *)
Theorem poll_follows_device (w : Host.world) (self : t) (tokens : list string) :
  is_connected self = true ->
  get_device_state w (controller self) = Py.Return (Some tokens) ->
  exists m,
    update_status_step w self = Py.Return (set_relay_states m self)
    /\ forall i, m !! i = Spec.polled tokens (relay_states self) i.
Proof.
  intros Hc Hs. eexists.
  split; [exact (update_status_step_answer w self tokens Hc Hs)|].
  intros i. apply update_fold_lookup.
Qed.

Lemma poll_follows_device_witness :
  exists m,
    update_status_step (Sample.board Sample.status4) Sample.connected4
      = Py.Return (set_relay_states m Sample.connected4)
    /\ forall i, m !! i
         = Spec.polled ["1=OFF"; "2=ON"; "3=OFF"; "4=OFF"]
             (relay_states Sample.connected4) i.
Proof.
  apply (poll_follows_device (Sample.board Sample.status4) Sample.connected4);
    reflexivity.
Defined.

(** X7: a polling turn is skipped, leaving the session as it was, when
    the status invocation fails for any of the four causes, when it
    prints white space only, and when the session is not connected. *)
Theorem failed_poll_skipped (w : Host.world) (self : t) (out : string) :
  Spec.failure (w (command_line (controller self) ["STATUS"]))
  \/ (Spec.succeeds (w (command_line (controller self) ["STATUS"])) out
      /\ Spec.all_whitespace out = true)
  \/ is_connected self = false ->
  update_status_step w self = Py.Return self.
Proof.
  intros [H|[[H1 H2]|H]].
  - apply update_status_step_none. unfold get_device_state.
    now rewrite (run_command_failure _ _ H).
  - apply update_status_step_none. unfold get_device_state.
    now rewrite (run_command_success _ _ _ H1), (strip_all_whitespace _ H2).
  - unfold update_status_step. now rewrite H.
Qed.

Lemma failed_poll_skipped_witness :
  update_status_step Sample.failing_host Sample.connected4 = Py.Return Sample.connected4
  /\ update_status_step Sample.blank_tool Sample.connected4 = Py.Return Sample.connected4
  /\ update_status_step (Sample.board Sample.status4) Sample.gui0 = Py.Return Sample.gui0.
Proof.
  repeat apply conj.
  - apply (failed_poll_skipped _ _ ""). left.
    apply Spec.timeout_exceeded. unfold timeout, Qlt. simpl. lia.
  - apply (failed_poll_skipped _ _ (Sample.TAB ++ Sample.LF)). right. left.
    split; [sample_succeeds | reflexivity].
  - apply (failed_poll_skipped _ _ ""). right. right. reflexivity.
Defined.

Lemma polled_again tokens (m m' : gmap Z bool) :
  (forall i, m' !! i = Spec.polled tokens m i) ->
  forall i, Spec.polled tokens m' i = m' !! i.
Proof.
  intros H i. unfold Spec.polled at 1. rewrite !H. unfold Spec.polled.
  destruct (m !! i) as [b|]; [|reflexivity].
  destruct (if decide (1 <= i) then tokens !! Z.to_nat (i - 1) else None);
    reflexivity.
Qed.

(** X8: polling is idempotent: a second turn against the same host
    changes nothing more. *)
Theorem poll_twice_same (w : Host.world) (self : t) :
  exists self',
    update_status_step w self = Py.Return self'
    /\ update_status_step w self' = Py.Return self'.
Proof.
  destruct (is_connected self) eqn:Hc.
  2: { exists self. split; unfold update_status_step; now rewrite Hc. }
  destruct (get_device_state_returns w (controller self)) as [[tokens|] Hs].
  2: { exists self. split; now apply update_status_step_none. }
  set (m' := fold_left update_one (Py.enumerate 1 tokens) (relay_states self)).
  exists (set_relay_states m' self).
  split; [exact (update_status_step_answer w self tokens Hc Hs)|].
  rewrite (update_status_step_answer w (set_relay_states m' self) tokens Hc Hs).
  assert (fold_left update_one (Py.enumerate 1 tokens)
            (relay_states (set_relay_states m' self)) = m') as ->; [|reflexivity].
  apply map_eq. intros i. simpl. rewrite update_fold_lookup.
  apply (polled_again tokens (relay_states self)).
  intros j. apply update_fold_lookup.
Qed.

Lemma toggle_relay_success (w : Host.world) (self : t) (relay_num : Z) (out : string) :
  is_connected self = true ->
  Spec.succeeds
    (w (command_line (controller self)
          [if get_state (relay_states self) relay_num then "OFF" else "ON";
           Py.str relay_num])) out ->
  toggle_relay w relay_num self
  = Py.Return (set_relay_states
                 (<[relay_num := negb (get_state (relay_states self) relay_num)]>
                    (relay_states self)) self).
Proof.
  intros Hc Hs. unfold toggle_relay, set_relay_state. rewrite Hc. simpl.
  now rewrite (run_command_success _ _ _ Hs).
Qed.

(** X9: a toggle whose request exits with status 0 flips the one channel
    and no other; the request is "ON" for a channel that is off or
    unknown to the dictionary, which is then entered as on, and "OFF"
    for one that is on.  The output of the tool is not looked at. *)
Theorem toggle_flips_one (w : Host.world) (self : t) (relay_num : Z) (out : string) :
  is_connected self = true ->
  Spec.succeeds
    (w (command_line (controller self)
          [if get_state (relay_states self) relay_num then "OFF" else "ON";
           Py.str relay_num])) out ->
  exists self',
    toggle_relay w relay_num self = Py.Return self'
    /\ relay_states self' !! relay_num
       = Some (negb (get_state (relay_states self) relay_num))
    /\ (forall i, i <> relay_num -> relay_states self' !! i = relay_states self !! i)
    /\ relay_count self' = relay_count self
    /\ is_connected self' = true.
Proof.
  intros Hc Hs. eexists. split; [exact (toggle_relay_success _ _ _ _ Hc Hs)|].
  simpl. repeat apply conj; try reflexivity.
  - apply lookup_insert_eq.
  - intros i Hi. now apply lookup_insert_ne.
  - exact Hc.
Qed.

Lemma toggle_flips_one_witness :
  exists self',
    toggle_relay (Sample.board Sample.status4) 7 Sample.connected4 = Py.Return self'
    /\ relay_states self' !! 7
       = Some (negb (get_state (relay_states Sample.connected4) 7))
    /\ (forall i, i <> 7 -> relay_states self' !! i = relay_states Sample.connected4 !! i)
    /\ relay_count self' = relay_count Sample.connected4
    /\ is_connected self' = true.
Proof.
  apply (toggle_flips_one (Sample.board Sample.status4) Sample.connected4 7 "").
  - reflexivity.
  - sample_succeeds.
Defined.

(** X10: two toggles of a channel the dictionary knows, both accepted by
    the tool, bring the session back to where it was. *)
Theorem toggle_twice_restores (w : Host.world) (self : t) (relay_num : Z)
    (b : bool) (out_on out_off : string) :
  is_connected self = true ->
  relay_states self !! relay_num = Some b ->
  Spec.succeeds (w (command_line (controller self) ["ON"; Py.str relay_num])) out_on ->
  Spec.succeeds (w (command_line (controller self) ["OFF"; Py.str relay_num])) out_off ->
  exists self',
    toggle_relay w relay_num self = Py.Return self'
    /\ relay_states self' !! relay_num = Some (negb b)
    /\ toggle_relay w relay_num self' = Py.Return self.
Proof.
  intros Hc Hb Hon Hoff.
  assert (get_state (relay_states self) relay_num = b) as Hg
    by (unfold get_state; now rewrite Hb).
  set (self' := set_relay_states (<[relay_num := negb b]> (relay_states self)) self).
  assert (toggle_relay w relay_num self = Py.Return self') as H1.
  { rewrite (toggle_relay_success w self relay_num (if b then out_off else out_on) Hc).
    - now rewrite Hg.
    - rewrite Hg. now destruct b. }
  assert (get_state (relay_states self') relay_num = negb b) as Hg'
    by (unfold get_state; simpl; now rewrite lookup_insert_eq).
  assert (is_connected self' = true) as Hc' by exact Hc.
  exists self'. repeat apply conj.
  - exact H1.
  - simpl. apply lookup_insert_eq.
  - pose proof (toggle_relay_success w self' relay_num
                  (if b then out_on else out_off) Hc') as K.
    rewrite Hg', negb_involutive in K. rewrite K.
    + simpl. rewrite insert_insert_eq, (insert_id _ _ _ Hb). f_equal.
      unfold self'. clear. now destruct self.
    + simpl. now destruct b.
Qed.

Lemma toggle_twice_restores_witness :
  exists self',
    toggle_relay (Sample.board Sample.status4) 2 Sample.connected4 = Py.Return self'
    /\ relay_states self' !! 2 = Some (negb false)
    /\ toggle_relay (Sample.board Sample.status4) 2 self' = Py.Return Sample.connected4.
Proof.
  apply (toggle_twice_restores (Sample.board Sample.status4) Sample.connected4 2
           false "" "").
  - reflexivity.
  - vm_compute. reflexivity.
  - sample_succeeds.
  - sample_succeeds.
Defined.

(** X11: a set-all request that exits with status 0 writes the requested
    state to the keys 1 to [relay_count] and to no other key: an entry
    beyond the channel count keeps whatever state it had. *)
Theorem set_all_writes_counted_keys (w : Host.world) (self : t) (out_on out_off : string) :
  (Spec.succeeds (w (command_line (controller self) ["ON"; "ALL"])) out_on ->
   exists self',
     turn_all_on w self = Py.Return self'
     /\ forall i, relay_states self' !! i
          = if decide (1 <= i <= relay_count self) then Some true
            else relay_states self !! i)
  /\ (Spec.succeeds (w (command_line (controller self) ["OFF"; "ALL"])) out_off ->
      exists self',
        turn_all_off w self = Py.Return self'
        /\ forall i, relay_states self' !! i
             = if decide (1 <= i <= relay_count self) then Some false
               else relay_states self !! i).
Proof.
  split; intros Hs; eexists.
  - unfold turn_all_on, set_all_relays.
    rewrite (run_command_success _ _ _ Hs). simpl.
    split; [reflexivity|]. intros i. apply fill_states_lookup.
  - unfold turn_all_off, set_all_relays.
    rewrite (run_command_success _ _ _ Hs). simpl.
    split; [reflexivity|]. intros i. apply fill_states_lookup.
Qed.

Lemma set_all_writes_counted_keys_witness :
  (exists self',
     turn_all_on (Sample.board Sample.status4) Sample.connected4 = Py.Return self'
     /\ forall i, relay_states self' !! i
          = if decide (1 <= i <= relay_count Sample.connected4) then Some true
            else relay_states Sample.connected4 !! i)
  /\ (exists self',
        turn_all_off (Sample.board Sample.status4) Sample.connected4 = Py.Return self'
        /\ forall i, relay_states self' !! i
             = if decide (1 <= i <= relay_count Sample.connected4) then Some false
               else relay_states Sample.connected4 !! i).
Proof.
  destruct (set_all_writes_counted_keys (Sample.board Sample.status4)
              Sample.connected4 "" "") as [H1 H2].
  split; [apply H1 | apply H2]; sample_succeeds.
Defined.

(** X12: a detection always ends with the detect button enabled again,
    and it touches neither the channel states, nor the cards, nor the
    connection; when it leaves the connect button enabled the channel
    count is positive. *)
Theorem detect_device_frame (w : Host.world) (self : t) :
  exists self',
    detect_device w self = Py.Return self'
    /\ detect_btn self' = NORMAL
    /\ relay_states self' = relay_states self
    /\ relay_cards self' = relay_cards self
    /\ is_connected self' = is_connected self
    /\ status_update_running self' = status_update_running self
    /\ controller self' = controller self
    /\ (connect_btn self' = NORMAL -> 0 < relay_count self').
Proof.
  destruct (detection_thread_cases w (set_buttons DISABLED (connect_btn self) self))
    as (devices_info & n & _ & _ & Ht).
  unfold detect_device. rewrite Ht. eexists. split; [reflexivity|].
  destruct (Py.truthy_opt_str devices_info); simpl;
    repeat apply conj; try reflexivity; try discriminate.
  intros _. destruct (Z.gtb_spec n 0); lia.
Qed.


End SessionMore.

(** ** The session between user actions *)

Section DashboardInvariant.

Import HIDRelayController ModernHIDRelayGUI Dashboard.

Variable fs : Host.filesystem.

Lemma channels_union (a b : Z) :
  Spec.channels a ∪ Spec.channels b = Spec.channels (Z.max a b).
Proof.
  apply set_eq. intros i. rewrite elem_of_union, !elem_of_channels. lia.
Qed.

Lemma channels_empty : Spec.channels 0 = ∅.
Proof. reflexivity. Qed.

Lemma create_cards_list (l : list Z) (cards : gset Z) :
  fold_left (fun s i => {[i]} ∪ s) l cards = list_to_set l ∪ cards.
Proof.
  revert cards. induction l as [|k l IH]; intros cards; simpl.
  - now rewrite (left_id_L ∅ (∪)).
  - rewrite IH. apply set_eq. intros i. rewrite !elem_of_union. tauto.
Qed.

Lemma create_relay_cards_channels (n : Z) :
  create_relay_cards n ∅ = Spec.channels n.
Proof.
  unfold create_relay_cards, Spec.channels. rewrite create_cards_list.
  apply (right_id_L ∅ (∪)).
Qed.

(** The two ways a detection can end. *)
Lemma detect_device_result (w : Host.world) (self : t) :
  (exists n, 0 < n
             /\ detect_device w self
                = Py.Return (set_buttons NORMAL NORMAL (set_relay_count n self)))
  \/ detect_device w self = Py.Return (set_buttons NORMAL DISABLED self).
Proof.
  destruct (detection_thread_cases w (set_buttons DISABLED (connect_btn self) self))
    as (devices_info & n & _ & _ & Ht).
  unfold detect_device. rewrite Ht.
  destruct (Py.truthy_opt_str devices_info); [left | right; reflexivity].
  exists (if n >? 0 then n else 4). split; [|reflexivity].
  destruct (Z.gtb_spec n 0); lia.
Qed.

Lemma toggle_relay_result (w : Host.world) (relay_num : Z) (self : t) :
  toggle_relay w relay_num self = Py.Return self
  \/ exists b, toggle_relay w relay_num self
               = Py.Return (set_relay_states (<[relay_num := b]> (relay_states self)) self).
Proof.
  unfold toggle_relay, set_relay_state.
  destruct (is_connected self); simpl; [|now left].
  match goal with |- context [run_command w ?c] =>
    destruct (run_command_returns w c) as [[o|] ->] end; simpl; eauto.
Qed.

Lemma set_all_result (w : Host.world) (self : t) :
  (turn_all_on w self = Py.Return self
   \/ turn_all_on w self
      = Py.Return (set_relay_states
                     (fill_states true (relay_count self) (relay_states self)) self))
  /\ (turn_all_off w self = Py.Return self
      \/ turn_all_off w self
         = Py.Return (set_relay_states
                        (fill_states false (relay_count self) (relay_states self)) self)).
Proof.
  unfold turn_all_on, turn_all_off, set_all_relays. split;
    match goal with |- context [run_command w ?c] =>
      destruct (run_command_returns w c) as [[o|] ->] end; simpl; eauto.
Qed.

Lemma update_status_step_result (w : Host.world) (self : t) :
  exists m,
    update_status_step w self = Py.Return (set_relay_states m self)
    /\ dom m = dom (relay_states self).
Proof.
  destruct (is_connected self) eqn:Hc.
  2: { exists (relay_states self). rewrite set_relay_states_id.
       split; [|reflexivity]. unfold update_status_step. now rewrite Hc. }
  destruct (get_device_state_returns w (controller self)) as [[tokens|] Hs].
  - eexists. split; [exact (update_status_step_answer w self tokens Hc Hs)|].
    apply dom_update_fold.
  - exists (relay_states self). rewrite set_relay_states_id.
    split; [|reflexivity]. now apply update_status_step_none.
Qed.

(** Rewriting states on the same keys keeps the invariant. *)
Lemma inv_set_relay_states (self : t) (m : gmap Z bool) :
  Spec.session_inv fs self ->
  dom m = dom (relay_states self) ->
  Spec.session_inv fs (set_relay_states m self).
Proof.
  intros [H1 H2 H3 H4 H5] Hd. constructor; simpl; try assumption.
  now rewrite Hd.
Qed.

Lemma inv_init : Spec.session_inv fs (init fs).
Proof.
  constructor; simpl; try discriminate; try reflexivity.
  - exists 0. split; [|discriminate]. now rewrite dom_empty_L.
  - intros _. repeat apply conj; reflexivity.
Qed.

Lemma inv_connect (self : t) :
  Spec.session_inv fs self -> is_connected self = false ->
  connect_btn self = NORMAL -> Spec.session_inv fs (connect self).
Proof.
  intros [H1 H2 H3 H4 H5] Hc Hb. specialize (H2 Hb).
  unfold connect. destruct (Z.eqb_spec (relay_count self) 0); [lia|].
  destruct (H5 Hc) as (Hcards & _). destruct H3 as (m & Hm & _).
  constructor; simpl; try assumption; try discriminate.
  - intros _. exact H2.
  - exists (Z.max (relay_count self) m). split; [|lia].
    now rewrite dom_fill_states, Hm, channels_union.
  - intros _. rewrite Hcards, create_relay_cards_channels.
    repeat apply conj; auto.
Qed.

Lemma inv_disconnect (self : t) :
  Spec.session_inv fs self -> Spec.session_inv fs (disconnect self).
Proof.
  intros [H1 H2 H3 H4 H5]. destruct H3 as (m & Hm & _).
  constructor; simpl; try assumption; try discriminate.
  - exists m. split; [exact Hm | discriminate].
  - intros _. auto.
Qed.

Lemma inv_connected_key (self : t) (i : Z) :
  Spec.session_inv fs self -> i ∈ relay_cards self ->
  is_connected self = true /\ 1 <= i <= relay_count self
  /\ i ∈ dom (relay_states self).
Proof.
  intros [H1 H2 H3 H4 H5] Hi.
  destruct (is_connected self) eqn:Hc.
  - destruct (H4 eq_refl) as (Hcards & _). destruct H3 as (m & Hm & Hle).
    rewrite Hcards, elem_of_channels in Hi.
    repeat split; try lia. rewrite Hm, elem_of_channels.
    specialize (Hle eq_refl). lia.
  - destruct (H5 eq_refl) as (Hcards & _). rewrite Hcards in Hi.
    now apply not_elem_of_empty in Hi.
Qed.

Lemma is_normal_true b : is_normal b = true -> b = NORMAL.
Proof. now destruct b. Qed.

Lemma inv_fill (self : t) (v : bool) :
  Spec.session_inv fs self -> all_on_btn self = NORMAL \/ all_off_btn self = NORMAL ->
  dom (fill_states v (relay_count self) (relay_states self)) = dom (relay_states self).
Proof.
  intros [H1 H2 H3 H4 H5] Hb.
  destruct (is_connected self) eqn:Hc.
  - destruct H3 as (m & Hm & Hle). specialize (Hle eq_refl).
    rewrite dom_fill_states, Hm, channels_union. f_equal. lia.
  - destruct (H5 eq_refl) as (_ & _ & Hon & Hoff & _).
    destruct Hb; congruence.
Qed.

(** Every action keeps the invariant. *)
Lemma inv_step (self : t) (a : action) (self' : t) :
  Spec.session_inv fs self ->
  enabled a self = true ->
  perform a self = Py.Return self' ->
  Spec.session_inv fs self'.
Proof.
  intros Hinv He Hp. destruct a as [w| |relay_num w|w|w|w| ]; simpl in He, Hp.
  - (* detection *)
    apply is_normal_true in He.
    assert (is_connected self = false) as Hc.
    { destruct (is_connected self) eqn:Hc; [|reflexivity].
      destruct Hinv as [_ _ _ H4 _]. destruct (H4 Hc) as (_ & _ & Hd & _).
      congruence. }
    destruct Hinv as [H1 H2 H3 H4 H5]. destruct (H5 Hc) as (Hcards & _ & Hon & Hoff & Hr).
    destruct H3 as (m & Hm & _).
    destruct (detect_device_result w self) as [(n & Hn & Hd)|Hd];
      rewrite Hd in Hp; injection Hp as <-; constructor; simpl.
    + exact H1.
    + intros _. exact Hn.
    + exists m. split; [exact Hm | congruence].
    + congruence.
    + intros _. repeat apply conj; auto.
    + exact H1.
    + discriminate.
    + exists m. split; [exact Hm | congruence].
    + congruence.
    + intros _. repeat apply conj; auto.
  - (* connect or disconnect *)
    apply is_normal_true in He. injection Hp as <-.
    unfold toggle_connection. destruct (is_connected self) eqn:Hc.
    + now apply inv_disconnect.
    + now apply inv_connect.
  - (* toggle from a card *)
    apply bool_decide_eq_true in He.
    destruct (inv_connected_key _ _ Hinv He) as (_ & _ & Hk).
    destruct (toggle_relay_result w relay_num self) as [H|[b H]];
      rewrite H in Hp; injection Hp as <-; [assumption|].
    apply inv_set_relay_states; [assumption|].
    rewrite dom_insert_L. apply subseteq_union_1_L.
    now apply singleton_subseteq_l.
  - (* all on *)
    apply is_normal_true in He.
    destruct (proj1 (set_all_result w self)) as [H|H];
      rewrite H in Hp; injection Hp as <-; [assumption|].
    apply inv_set_relay_states; [assumption|]. apply inv_fill; auto.
  - (* all off *)
    apply is_normal_true in He.
    destruct (proj2 (set_all_result w self)) as [H|H];
      rewrite H in Hp; injection Hp as <-; [assumption|].
    apply inv_set_relay_states; [assumption|]. apply inv_fill; auto.
  - (* polling *)
    destruct (status_update_running self); [|now injection Hp as <-].
    destruct (update_status_step_result w self) as (m & Hs & Hd).
    rewrite Hs in Hp. simpl in Hp. injection Hp as <-.
    now apply inv_set_relay_states.
  - (* closing *)
    injection Hp as <-. unfold on_closing. simpl.
    destruct (is_connected self) eqn:Hc.
    + destruct Hinv as [H1 H2 H3 H4 H5]. destruct H3 as (m & Hm & _).
      constructor; simpl; try assumption; try discriminate.
      * exists m. split; [exact Hm | discriminate].
      * intros _. repeat apply conj; reflexivity.
    + destruct Hinv as [H1 H2 H3 H4 H5].
      destruct (H5 Hc) as (? & ? & ? & ? & ?).
      constructor; simpl; try assumption; try congruence.
      intros _. repeat apply conj; auto.
Qed.

Lemma reachable_inv (self : t) : reachable fs self -> Spec.session_inv fs self.
Proof.
  induction 1 as [|self a self' _ IH He Hp]; [apply inv_init|].
  exact (inv_step _ _ _ IH He Hp).
Qed.

(** No action raises. *)
Lemma perform_returns (a : action) (self : t) :
  exists self', perform a self = Py.Return self'.
Proof.
  destruct a as [w| |relay_num w|w|w|w| ]; simpl; eauto.
  - destruct (detect_device_result w self) as [(n & _ & ->)| ->]; eauto.
  - destruct (toggle_relay_result w relay_num self) as [->|[b ->]]; eauto.
  - destruct (proj1 (set_all_result w self)) as [->| ->]; eauto.
  - destruct (proj2 (set_all_result w self)) as [->| ->]; eauto.
  - destruct (status_update_running self); eauto.
    destruct (update_status_step_result w self) as (m & -> & _). simpl. eauto.
Qed.

End DashboardInvariant.

(** The sample session with four channels, detected and then connected,
    is one the user can reach. *)
Ltac reach_detected4 :=
  apply (Dashboard.reach_step _ Sample.gui0
           (Dashboard.click_detect (Sample.board Sample.status4)));
  [ apply Dashboard.reach_init | reflexivity | vm_compute; reflexivity ].

Ltac reach_connected4 :=
  apply (Dashboard.reach_step _ Sample.detected4 Dashboard.click_connect);
  [ reach_detected4 | reflexivity | vm_compute; reflexivity ].

Section DashboardProperties.

Import HIDRelayController ModernHIDRelayGUI Dashboard.

(** X14: whatever the user does and whatever the host answers, no action
    raises: every list of actions runs to its end, in a state that the
    invariant of the session describes. *)
Theorem run_never_raises (fs : Host.filesystem) (actions : list action) :
  exists self, run actions (init fs) = Py.Return self /\ reachable fs self.
Proof.
  assert (forall s, reachable fs s ->
            exists self, run actions s = Py.Return self /\ reachable fs self) as H;
    [|apply H, reach_init].
  induction actions as [|a actions IH]; intros s Hs; simpl; [eauto|].
  destruct (enabled a s) eqn:He; [|now apply IH].
  destruct (perform_returns a s) as [s' Hp]. rewrite Hp. simpl.
  apply IH. exact (reach_step fs s a s' Hs He Hp).
Qed.

(** X15: while a session is connected it has a positive channel count,
    one card for each of the channels 1 to [relay_count] and no other
    card, a state for each of these channels, and its polling flag set. *)
Theorem connected_session_shape (fs : Host.filesystem) (self : t) :
  reachable fs self ->
  is_connected self = true ->
  0 < relay_count self
  /\ relay_cards self = Spec.channels (relay_count self)
  /\ (forall i, 1 <= i <= relay_count self -> is_Some (relay_states self !! i))
  /\ status_update_running self = true.
Proof.
  intros Hr Hc. destruct (reachable_inv fs self Hr) as [H1 H2 H3 H4 H5].
  destruct (H4 Hc) as (Hcards & Hb & _ & _ & _ & Hrun).
  destruct H3 as (m & Hm & Hle). specialize (Hle Hc).
  repeat apply conj; auto.
  intros i Hi. apply elem_of_dom. rewrite Hm, elem_of_channels. lia.
Qed.

Lemma connected_session_shape_witness :
  0 < relay_count Sample.connected4
  /\ relay_cards Sample.connected4 = Spec.channels (relay_count Sample.connected4)
  /\ (forall i, 1 <= i <= relay_count Sample.connected4 ->
                is_Some (relay_states Sample.connected4 !! i))
  /\ status_update_running Sample.connected4 = true.
Proof.
  apply (connected_session_shape Sample.bundled_fs Sample.connected4).
  - reach_connected4.
  - reflexivity.
Defined.

(** X16: with every detection taken as one step (no click while its
    thread runs), the keys of the channel dictionary are always the
    numbers 1 to [m] for some [m], with no gap, and [m] is at least the
    channel count while the session is connected. *)
Theorem states_keys_contiguous (fs : Host.filesystem) (self : t) :
  reachable fs self ->
  exists m,
    dom (relay_states self) = Spec.channels m
    /\ (is_connected self = true -> relay_count self <= m).
Proof.
  intros Hr. now destruct (reachable_inv fs self Hr) as [_ _ H3 _ _].
Qed.

Lemma states_keys_contiguous_witness :
  exists m,
    dom (relay_states Sample.connected4) = Spec.channels m
    /\ (is_connected Sample.connected4 = true -> relay_count Sample.connected4 <= m).
Proof.
  apply (states_keys_contiguous Sample.bundled_fs Sample.connected4).
  reach_connected4.
Defined.

(** X17: the connect button is enabled only when a channel count is
    known, so a click on it in a disconnected session always connects:
    the session becomes connected with the same count and every channel
    1 to [relay_count] off. *)
Theorem connect_button_connects (fs : Host.filesystem) (self : t) :
  reachable fs self ->
  is_connected self = false ->
  connect_btn self = NORMAL ->
  is_connected (toggle_connection self) = true
  /\ relay_count (toggle_connection self) = relay_count self
  /\ forall i, 1 <= i <= relay_count self ->
               relay_states (toggle_connection self) !! i = Some false.
Proof.
  intros Hr Hc Hb. destruct (reachable_inv fs self Hr) as [_ H2 _ _ _].
  specialize (H2 Hb). unfold toggle_connection. rewrite Hc.
  assert (relay_count self <> 0) as Hn by lia.
  repeat apply conj.
  - unfold connect. now destruct (Z.eqb_spec (relay_count self) 0).
  - unfold connect. now destruct (Z.eqb_spec (relay_count self) 0).
  - intros i Hi. rewrite (connect_relay_states self i Hn).
    now rewrite decide_True.
Qed.

Lemma connect_button_connects_witness :
  is_connected (toggle_connection Sample.detected4) = true
  /\ relay_count (toggle_connection Sample.detected4) = relay_count Sample.detected4
  /\ forall i, 1 <= i <= relay_count Sample.detected4 ->
               relay_states (toggle_connection Sample.detected4) !! i = Some false.
Proof.
  apply (connect_button_connects Sample.bundled_fs Sample.detected4).
  - reach_detected4.
  - reflexivity.
  - reflexivity.
Defined.

(** X18: the buttons and the polling flag follow the connection: the
    detect button is enabled exactly while the session is disconnected,
    the two set-all buttons exactly while it is connected, the polling
    flag equals the connection flag, and a disconnected session has no
    card. *)
Theorem buttons_follow_connection (fs : Host.filesystem) (self : t) :
  reachable fs self ->
  (detect_btn self = NORMAL <-> is_connected self = false)
  /\ (all_on_btn self = NORMAL <-> is_connected self = true)
  /\ (all_off_btn self = NORMAL <-> is_connected self = true)
  /\ status_update_running self = is_connected self
  /\ (is_connected self = false -> relay_cards self = ∅).
Proof.
  intros Hr. destruct (reachable_inv fs self Hr) as [_ _ _ H4 H5].
  destruct (is_connected self).
  - destruct (H4 eq_refl) as (_ & _ & -> & -> & -> & ->).
    repeat split; intros; congruence.
  - destruct (H5 eq_refl) as (-> & -> & -> & -> & ->).
    repeat split; intros; congruence.
Qed.

Lemma buttons_follow_connection_witness :
  (detect_btn Sample.connected4 = NORMAL <-> is_connected Sample.connected4 = false)
  /\ (all_on_btn Sample.connected4 = NORMAL <-> is_connected Sample.connected4 = true)
  /\ (all_off_btn Sample.connected4 = NORMAL <-> is_connected Sample.connected4 = true)
  /\ status_update_running Sample.connected4 = is_connected Sample.connected4
  /\ (is_connected Sample.connected4 = false -> relay_cards Sample.connected4 = ∅).
Proof.
  apply (buttons_follow_connection Sample.bundled_fs Sample.connected4).
  reach_connected4.
Defined.

(** X19: the dashboard never sets a device identifier: every command
    line it sends is the located executable followed by the request,
    with no [id=] argument. *)
Theorem no_device_id_sent (fs : Host.filesystem) (self : t) (args : list string) :
  reachable fs self ->
  command_line (controller self) args = get_relay_executable fs :: args.
Proof.
  intros Hr. destruct (reachable_inv fs self Hr) as [H1 _ _ _ _].
  now rewrite H1.
Qed.

Lemma no_device_id_sent_witness :
  command_line (controller Sample.connected4) ["STATUS"]
  = [get_relay_executable Sample.bundled_fs; "STATUS"].
Proof.
  apply (no_device_id_sent Sample.bundled_fs Sample.connected4).
  reach_connected4.
Defined.



End DashboardProperties.
